(** * The glucose minimal model of chapter 18: simulation and fitting

    A shallow embedding of the code cells of [code/chap18.ipynb]:
    [update_func], [run_simulation], [slope_func], [make_system],
    [error_func], the call of [fit_leastsq] and [indices].

    Conventions of the embedding.
    - Python numbers are exact rationals ([Q]); numeric equality is [Qeq],
      as [2 == 2.0] is in Python.  Rounding of binary floating point is
      outside the model.
    - A raised exception is a value [Raise e] of the [result] type and
      [x ← e; k] stops at the first [Raise], as a Python block without
      [try] does.
    - A [State], [System] or [Params] object is a collection of named
      values.  A [State] keeps the order of its fields (the rules unpack
      it by position); a [System] is read by name only and is a finite
      map from names to values.
    - The notebook is one global namespace.  A name used inside a function
      and not assigned there is looked up in the namespace the function
      sees after [unpack(system)]: the fields of [system] first, then the
      names the notebook defined before the call. *)

From Stdlib Require Import QArith Qround Qpower Lqa FunctionalExtensionality.
From stdpp Require Import base option list strings gmap.

Local Open Scope string_scope.
Local Open Scope list_scope.
Local Open Scope Q_scope.

(** ** Exceptions and results *)

Inductive exn : Type :=
| ValueError          (* unpacking a sequence of the wrong length *)
| NameError (name : string)
| TypeError (name : string)
| KeyError (label : Q)
| IndexError
| AttributeError (name : string)
| ZeroDivisionError
| RuleError (msg : string).  (* anything a caller-supplied rule raises *)

Inductive result (A : Type) : Type :=
| Ok (a : A)
| Raise (e : exn).
Arguments Ok {A} a.
Arguments Raise {A} e.

#[global] Instance result_ret : MRet result := fun A a => Ok a.
#[global] Instance result_bind : MBind result := fun A B f r =>
  match r with
  | Ok a => f a
  | Raise e => Raise e
  end.

(** ** Named values *)

(** [State(G=.., X=..)]: field names with their values, in the order given. *)
Abbreviation State := (list (string * Q)).

Definition index (s : State) : list string := s.*1.
Definition values (s : State) : list Q := s.*2.

(** What a name of the notebook can be bound to. *)
Inductive value : Type :=
| VNum (x : Q)
| VState (s : State)
| VFun (f : Q → Q).

(** [System(init=.., k1=.., ..)]: a bundle read by field name. *)
Abbreviation System := (gmap string value).
Abbreviation Namespace := (gmap string value).

(** [unpack(system)]: the fields of [system] become names of the calling
    code and hide what the notebook had bound to them. *)
Definition unpack (system : System) (globals : Namespace) : Namespace :=
  system ∪ globals.

Definition name_num (ns : Namespace) (name : string) : result Q :=
  match ns !! name with
  | Some (VNum x) => Ok x
  | Some _ => Raise (TypeError name)
  | None => Raise (NameError name)
  end.

Definition name_state (ns : Namespace) (name : string) : result State :=
  match ns !! name with
  | Some (VState s) => Ok s
  | Some _ => Raise (TypeError name)
  | None => Raise (NameError name)
  end.

Definition name_fun (ns : Namespace) (name : string) : result (Q → Q) :=
  match ns !! name with
  | Some (VFun f) => Ok f
  | Some _ => Raise (TypeError name)
  | None => Raise (NameError name)
  end.

(** [a, b = xs]: exactly two values, or [ValueError]. *)
Definition unpack2 (xs : list Q) : result (Q * Q) :=
  match xs with
  | [a; b] => Ok (a, b)
  | _ => Raise ValueError
  end.

(** [a, b, c, d = xs]: exactly four values, or [ValueError]. *)
Definition unpack4 (xs : list Q) : result (Q * Q * Q * Q) :=
  match xs with
  | [a; b; c; d] => Ok (a, b, c, d)
  | _ => Raise ValueError
  end.

(** ** The rules of the minimal model *)

Section Rules.
(** The names the notebook has bound when a rule is called. *)
Variable globals : Namespace.

(** [update_func(state, t, system)] *)
Definition update_func (state : State) (t : Q) (system : System)
  : result State :=
  '(G, X) ← unpack2 (values state);
  let ns := unpack system globals in
  k1 ← name_num ns "k1";
  Gb ← name_num ns "Gb";
  let dGdt := - k1 * (G - Gb) - X * G in
  k3 ← name_num ns "k3";
  I ← name_fun ns "I";
  Ib ← name_num ns "Ib";
  k2 ← name_num ns "k2";
  let dXdt := k3 * (I t - Ib) - k2 * X in
  dt ← name_num ns "dt";
  let G := G + dGdt * dt in
  let X := X + dXdt * dt in
  Ok [("G", G); ("X", X)].

(** [slope_func(state, t, system)] *)
Definition slope_func (state : State) (t : Q) (system : System)
  : result (list Q) :=
  '(G, X) ← unpack2 (values state);
  let ns := unpack system globals in
  k1 ← name_num ns "k1";
  Gb ← name_num ns "Gb";
  let dGdt := - k1 * (G - Gb) - X * G in
  k3 ← name_num ns "k3";
  I ← name_fun ns "I";
  Ib ← name_num ns "Ib";
  k2 ← name_num ns "k2";
  let dXdt := k3 * (I t - Ib) - k2 * X in
  Ok [dGdt; dXdt].
End Rules.

(** The names [update_func] looks up, in the order it reads them. *)
Definition update_func_names : list string :=
  ["k1"; "Gb"; "k3"; "I"; "Ib"; "k2"; "dt"].

(** [name] is bound to a value of the kind the rules use it as: a function
    for I, a number for every other name. *)
Definition bound_as_used (ns : Namespace) (name : string) : Prop :=
  match ns !! name with
  | Some (VFun _) => name = "I"
  | Some (VNum _) => name ≠ "I"
  | _ => False
  end.

(** ** The discrete simulator *)

(** Modelled from the spec: [TimeFrame] (the modsim library is not part of
    the sources).  "A time-indexed, ordered sequence of StateVector rows,
    one per simulated instant", with "one named numeric column per
    StateVector field".  [frame.row[t] = s] overwrites the row labelled
    [t] when there is one and appends a new last row otherwise;
    reading [frame.row[t]] where no row is labelled [t] raises [KeyError].
    Labels are compared as numbers. *)
Record TimeFrame : Type := mkTimeFrame {
  columns : list string;
  rows : list (Q * State)
}.

Definition get_row (frame : TimeFrame) (t : Q) : result State :=
  match find (fun r => Qeq_bool r.1 t) (rows frame) with
  | Some r => Ok r.2
  | None => Raise (KeyError t)
  end.

Fixpoint assign_row (rs : list (Q * State)) (t : Q) (s : State)
  : list (Q * State) :=
  match rs with
  | [] => [(t, s)]
  | r :: rs' => if Qeq_bool r.1 t then (r.1, s) :: rs'
                else r :: assign_row rs' t s
  end.

Definition set_row (frame : TimeFrame) (t : Q) (s : State) : TimeFrame :=
  mkTimeFrame (columns frame) (assign_row (rows frame) t s).

(** Modelled from the spec: [linrange] (modsim library, not part of the
    sources).  The simulator visits "the strictly increasing sequence
    t0, t0+dt, t0+2dt, ..." and records each result at [t+dt]; "the final
    recorded time may fall at or before t_end, never after", and
    "t0=0, t_end=4, dt=2 must produce exactly 3 rows at times 0, 2, 4".
    So the visited points are the [start + i*step] with
    [start + (i+1)*step <= stop].  The spec fixes nothing for a step that
    is not positive or an end before the start; the model visits no point
    then. *)
Definition linrange (start stop step : Q) : list Q :=
  if Qle_bool step 0 then []
  else (fun i : nat => start + inject_Z (Z.of_nat i) * step)
         <$> seq 0 (Z.to_nat (Qfloor ((stop - start) / step))).

(** A caller-supplied update rule. *)
Definition update_rule : Type := State → Q → System → result State.

(** The [for t in ts] loop of [run_simulation]. *)
Fixpoint run_steps (update_func : update_rule) (system : System) (dt : Q)
    (ts : list Q) (frame : TimeFrame) : result TimeFrame :=
  match ts with
  | [] => Ok frame
  | t :: ts' =>
      state ← get_row frame t;
      state' ← update_func state t system;
      run_steps update_func system dt ts' (set_row frame (t + dt) state')
  end.

(** The frame before the loop: [TimeFrame(columns=init.index)] with
    [frame.row[t_0] = init]. *)
Definition first_frame (init : State) (t_0 : Q) : TimeFrame :=
  set_row (mkTimeFrame (index init) []) t_0 init.

Section Simulation.
Variable globals : Namespace.

(** [run_simulation(system, update_func)] *)
Definition run_simulation (system : System) (update_func : update_rule)
  : result TimeFrame :=
  let ns := unpack system globals in
  init ← name_state ns "init";
  t_0 ← name_num ns "t_0";
  let frame := first_frame init t_0 in
  t_end ← name_num ns "t_end";
  dt ← name_num ns "dt";
  let ts := linrange t_0 t_end dt in
  run_steps update_func system dt ts frame.
End Simulation.

(** The trajectory in the words of the design: "compute
    [next_state = f(current_state, t, config)] and record it at time
    [t+dt]", with no table to read the current state from. *)
Fixpoint trajectory (update_func : update_rule) (system : System) (dt : Q)
    (ts : list Q) (state : State) : result (list (Q * State)) :=
  match ts with
  | [] => Ok []
  | t :: ts' =>
      state' ← update_func state t system;
      rest ← trajectory update_func system dt ts' state';
      Ok ((t + dt, state') :: rest)
  end.

(** [ts] is [t, t+dt, t+2dt, ...] as numbers. *)
Fixpoint evenly_spaced (t dt : Q) (ts : list Q) : Prop :=
  match ts with
  | [] => True
  | t' :: ts' => t' == t ∧ evenly_spaced (t + dt) dt ts'
  end.

(** The last row of [frame] is [state] at time [t]; all others are earlier. *)
Definition ends_at (frame : TimeFrame) (t : Q) (state : State) : Prop :=
  ∃ before t', rows frame = before ++ [(t', state)] ∧ t' == t ∧
    Forall (fun r => r.1 < t) before.

(** ** The observed data *)

(** One row of [data/glucose_insulin.csv]: the time label of the row and
    the two measured columns. *)
Record observation : Type := mkObservation {
  time : Q;
  glucose : Q;
  insulin : Q
}.

(** The table read by [pd.read_csv(.., index_col='time')]. *)
Abbreviation DataFrame := (list observation).

(** A column with its time labels, as [data.glucose] or [results.G]. *)
Abbreviation Series := (list (Q * Q)).

(** [data.index] *)
Definition data_index (data : DataFrame) : list Q := time <$> data.

(** [data.glucose] and [data.insulin] *)
Definition data_glucose (data : DataFrame) : Series :=
  (fun o => (time o, glucose o)) <$> data.
Definition data_insulin (data : DataFrame) : Series :=
  (fun o => (time o, insulin o)) <$> data.

(** [series[t]].  On the numeric index of a table that has rows the
    selection is by label, not by position: the entry labelled [t], or
    [KeyError].  A table without rows, as read from a file that holds the
    header only, has no numeric index, and [series[0]] is then a position
    out of range: [IndexError].  Where several entries are labelled [t]
    pandas returns them all; the model takes the first, so it follows the
    code on the tables in which [t] labels one row at most, as in every
    table with a strictly increasing time index. *)
Definition series_at (s : Series) (t : Q) : result Q :=
  match s with
  | [] => Raise IndexError
  | _ :: _ =>
      match find (fun e => Qeq_bool e.1 t) s with
      | Some e => Ok e.2
      | None => Raise (KeyError t)
      end
  end.

(** [get_first_label(data)] and [get_last_label(data)]: [data.index[0]] and
    [data.index[-1]]. *)
Definition get_first_label (data : DataFrame) : result Q :=
  match data_index data with
  | t :: _ => Ok t
  | [] => Raise IndexError
  end.

Definition get_last_label (data : DataFrame) : result Q :=
  match last (data_index data) with
  | Some t => Ok t
  | None => Raise IndexError
  end.

(** [make_system(params, data)] *)
Definition make_system (params : list Q) (data : DataFrame) : result System :=
  '(G0, k1, k2, k3) ← unpack4 params;
  Gb ← series_at (data_glucose data) 0;
  Ib ← series_at (data_insulin data) 0;
  t_0 ← get_first_label data;
  t_end ← get_last_label data;
  let init : State := [("G", G0); ("X", 0)] in
  Ok (<["G0" := VNum G0]> (<["k1" := VNum k1]> (<["k2" := VNum k2]>
     (<["k3" := VNum k3]> (<["init" := VState init]> (<["Gb" := VNum Gb]>
     (<["Ib" := VNum Ib]> (<["t_0" := VNum t_0]>
     (<["t_end" := VNum t_end]> ∅))))))))).

(** [indices(params)] *)
Definition indices (params : list Q) : result State :=
  '(G0, k1, k2, k3) ← unpack4 params;
  S_I ← (if Qeq_bool k2 0 then Raise ZeroDivisionError else Ok (k3 / k2));
  Ok [("S_G", k1); ("S_I", S_I)].

(** ** The continuous simulator and the fit *)

(** A caller-supplied slope rule: the derivatives in the order of the
    fields of the state. *)
Definition slope_rule : Type := State → Q → System → result (list Q).

(** Modelled from the spec: the external ODE solver.  It "accepts an
    initial positional state vector, a time span, a slope callback in
    positional form, and optional explicit evaluation times; returns
    positional state rows at each evaluation time plus a success flag and
    message".  What the callback raises passes through the solver. *)
Record solution : Type := mkSolution {
  sol_rows : list (Q * list Q);
  sol_success : bool;
  sol_message : string
}.

Definition ode_solver : Type :=
  (Q → list Q → result (list Q)) → Q * Q → list Q → option (list Q) →
  result solution.

(** "A small record of solver/optimizer metadata". *)
Record Diagnostics : Type := mkDiagnostics {
  success : bool;
  message : string
}.

(** The result of [a - b] on two labelled columns; [None] is the [NaN]
    pandas puts where a label is missing on one side. *)
Abbreviation Residuals := (list (Q * option Q)).

Definition same_labels (a b : list Q) : bool :=
  bool_decide (length a = length b) &&
  forallb (fun p => Qeq_bool p.1 p.2) (zip a b).

Fixpoint insert_label (t : Q) (ts : list Q) : list Q :=
  match ts with
  | [] => [t]
  | t' :: ts' => if Qeq_bool t' t then ts
                 else if Qle_bool t t' then t :: ts
                 else t' :: insert_label t ts'
  end.

(** The sorted union of two indexes. *)
Definition union_labels (a b : list Q) : list Q :=
  foldr insert_label [] (a ++ b).

Definition series_get (s : Series) (t : Q) : option Q :=
  snd <$> find (fun e => Qeq_bool e.1 t) s.

(** [a - b]: pandas aligns the two columns on their labels.  Equal indexes
    are kept as they are; otherwise the result is indexed by the sorted
    union of the labels. *)
Definition series_sub (a b : Series) : Residuals :=
  let labels := if same_labels a.*1 b.*1 then a.*1
                else union_labels a.*1 b.*1 in
  (fun t => (t, x ← series_get a t; y ← series_get b t; Some (x - y)))
    <$> labels.

(** The value of the field [name] of a state. *)
Definition field (s : State) (name : string) : option Q :=
  snd <$> find (fun c => bool_decide (c.1 = name)) s.

(** [frame.G]: the column named [name], or [AttributeError]. *)
Definition frame_column (frame : TimeFrame) (name : string) : result Series :=
  if bool_decide (name ∈ columns frame) then
    Ok (omap (fun r => pair r.1 <$> field r.2 name) (rows frame))
  else Raise (AttributeError name).

Section Fitting.
(** The external solver the notebook calls through [run_ode_solver]. *)
Variable solve_ivp : ode_solver.
Variable globals : Namespace.

(** Modelled from the spec: [run_ode_solver] (modsim library, only
    called in the sources).  It does "only the bridging: translating the
    named StateVector into the positional vector form the solver
    expects, invoking the solver, and translating the solver's
    positional output rows back into named StateVector rows indexed by
    time.  Diagnostics echo the solver's own success flag and message
    verbatim."  A row that has not one value per field cannot be put in
    the table ([ValueError]). *)
Definition run_ode_solver (system : System) (slope_func : slope_rule)
    (t_eval : option (list Q)) : result (TimeFrame * Diagnostics) :=
  let ns := unpack system globals in
  init ← name_state ns "init";
  t_0 ← name_num ns "t_0";
  t_end ← name_num ns "t_end";
  let f := fun t y => slope_func (zip (index init) y) t system in
  bunch ← solve_ivp f (t_0, t_end) (values init) t_eval;
  if forallb (fun r => bool_decide (length r.2 = length init))
       (sol_rows bunch)
  then
    let results :=
      mkTimeFrame (index init)
        ((fun r => (r.1, zip (index init) r.2)) <$> sol_rows bunch) in
    Ok (results, mkDiagnostics (sol_success bunch) (sol_message bunch))
  else Raise ValueError.

(** [error_func(params, data)].  [print(params)] only writes to the
    output of the cell and is left out. *)
Definition error_func (params : list Q) (data : DataFrame)
  : result Residuals :=
  system ← make_system params data;
  '(results, details) ← run_ode_solver system (slope_func globals)
                          (Some (data_index data));
  G ← frame_column results "G";
  let errors := series_sub G (data_glucose data) in
  Ok errors.
End Fitting.

(** Modelled from the spec: [fit_leastsq] (modsim library, only called in
    the sources).  The Fitter "delegates to an external nonlinear
    least-squares routine", handing it the objective (with the data it is
    to be called on) and the initial guess, and returns the routine's best
    parameters and diagnostics. *)
Definition fit_leastsq
    (leastsq : (list Q → result Residuals) → list Q →
               result (list Q * Diagnostics))
    (error_func : list Q → DataFrame → result Residuals)
    (params : list Q) (data : DataFrame) : result (list Q * Diagnostics) :=
  leastsq (fun p => error_func p data) params.

(** *** What is asked of the external solver *)

Definition increasing (ts : list Q) : Prop :=
  ∀ i j a b, (i < j)%nat → ts !! i = Some a → ts !! j = Some b → a < b.

(** "Given explicit evaluation times [the solver] must produce a Trajectory
    with exactly one row per requested time, in the same order as
    requested": for increasing times inside the span and a slope that
    returns one derivative per component. *)
Definition honours_t_eval (solve : ode_solver) : Prop :=
  ∀ f t_0 t_end y0 t_eval,
    (∀ t y, length y = length y0 →
            ∃ d, f t y = Ok d ∧ length d = length y0) →
    increasing t_eval →
    Forall (fun t => t_0 <= t ∧ t <= t_end) t_eval →
    ∃ sol, solve f (t_0, t_end) y0 (Some t_eval) = Ok sol ∧
           (sol_rows sol).*1 = t_eval ∧
           Forall (fun r => length r.2 = length y0) (sol_rows sol).

Definition vec_eq (a b : list Q) : Prop := Forall2 Qeq a b.

(** A solver leaves an equilibrium where it is: when the slope is zero at
    the initial vector at all times, every row it returns is that vector. *)
Definition keeps_equilibrium (solve : ode_solver) : Prop :=
  ∀ f span y0 t_eval sol,
    (∀ t y, vec_eq y y0 →
            ∃ d, f t y = Ok d ∧ length d = length y0 ∧ Forall (Qeq 0) d) →
    solve f span y0 t_eval = Ok sol →
    Forall (fun r => vec_eq r.2 y0) (sol_rows sol).

(** Two states with the same fields and numerically equal values. *)
Definition state_eq (a b : State) : Prop :=
  Forall2 (fun x y => x.1 = y.1 ∧ x.2 == y.2) a b.

(** *** One solver of that kind: forward Euler between evaluation times *)

Fixpoint euler_rows (f : Q → list Q → result (list Q)) (t : Q) (y : list Q)
    (t_eval : list Q) : result (list (Q * list Q)) :=
  match t_eval with
  | [] => Ok []
  | t' :: rest =>
      d ← f t y;
      let y' := zip_with (fun yi di => yi + (t' - t) * di) y d in
      later ← euler_rows f t' y' rest;
      Ok ((t', y') :: later)
  end.

Definition euler_ivp : ode_solver := fun f span y0 t_eval =>
  rows ← euler_rows f span.1 y0 (default [span.2] t_eval);
  Ok (mkSolution rows true "The solver successfully reached the end.").

(** The bundle [make_system] builds, for given values of its fields. *)
Definition system_of (G0 k1 k2 k3 Gb Ib t_0 t_end : Q) : System :=
  <["G0" := VNum G0]> (<["k1" := VNum k1]> (<["k2" := VNum k2]>
  (<["k3" := VNum k3]> (<["init" := VState [("G", G0); ("X", 0)]]>
  (<["Gb" := VNum Gb]> (<["Ib" := VNum Ib]> (<["t_0" := VNum t_0]>
  (<["t_end" := VNum t_end]> ∅)))))))).

(** ** Concrete inputs *)

(** A rule that fails when it is asked for the step from t = 2. *)
Definition failing_rule : update_rule := fun state t system =>
  if Qeq_bool t 2 then Raise (RuleError "no step from 2") else Ok state.

(** The [System] of cell 8, for given values. *)
Definition notebook_system (init : State) (k1 k2 k3 : Q) (I : Q → Q)
    (Gb Ib t_0 t_end dt : Q) : System :=
  <["init" := VState init]> (<["k1" := VNum k1]> (<["k2" := VNum k2]>
  (<["k3" := VNum k3]> (<["I" := VFun I]> (<["Gb" := VNum Gb]>
  (<["Ib" := VNum Ib]> (<["t_0" := VNum t_0]> (<["t_end" := VNum t_end]>
  (<["dt" := VNum dt]> ∅))))))))).

(** A table of three observations, at the times 0, 2 and 4. *)
Definition sample_data : DataFrame :=
  [mkObservation 0 92 11; mkObservation 2 350 26; mkObservation 4 287 130].

(** The same rows with the latest first. *)
Definition reversed_data : DataFrame :=
  [mkObservation 4 287 130; mkObservation 2 350 26; mkObservation 0 92 11].

(** The parameters of cell 19. *)
Definition sample_params : list Q := [290; 3#100; 2#100; 1#100000].

(** A system with an initial state, a time span without length and a step,
    and none of the parameters the rules read. *)
Definition bare_system : System :=
  <["init" := VState [("G", 290); ("X", 0)]]> (<["t_0" := VNum 0]>
  (<["t_end" := VNum 0]> (<["dt" := VNum 2]> ∅))).

(** A least-squares routine that evaluates the objective at the guess and
    proposes nothing better. *)
Definition single_evaluation
    (objective : list Q → result Residuals) (x0 : list Q)
  : result (list Q * Diagnostics) :=
  residuals ← objective x0;
  Ok (x0, mkDiagnostics true "The guess is kept.").

(** A solver that gives up after the first evaluation time and says so. *)
Definition stalling_ivp : ode_solver := fun f span y0 t_eval =>
  rows ← euler_rows f span.1 y0 (take 1 (default [span.2] t_eval));
  Ok (mkSolution rows false "Required step size is too small.").

(** ** The definitions at work *)

Example update_func_cell :
  update_func ∅ [("G", 290); ("X", 0)] 0
    (notebook_system [("G", 290); ("X", 0)] (3#100) (2#100) (1#100000)
       (fun _ => 11) 92 11 0 182 2)
  = Ok [("G", 290 + (- (3#100) * (290 - 92) - 0 * 290) * 2);
        ("X", 0 + ((1#100000) * (11 - 11) - (2#100) * 0) * 2)].
Proof. reflexivity. Qed.

Example update_func_one_field :
  update_func ∅ [("G", 290)] 0
    (notebook_system [("G", 290)] (3#100) (2#100) (1#100000)
       (fun _ => 11) 92 11 0 182 2)
  = Raise ValueError.
Proof. reflexivity. Qed.

Example linrange_0_4_2 : linrange 0 4 2 = [0 + 0 * 2; 0 + 1 * 2].
Proof. reflexivity. Qed.

Example linrange_0_5_2 : linrange 0 5 2 = [0 + 0 * 2; 0 + 1 * 2].
Proof. reflexivity. Qed.

Example linrange_0_0_2 : linrange 0 0 2 = [].
Proof. reflexivity. Qed.

Example run_simulation_0_4_2 :
  match run_simulation ∅
          (notebook_system [("G", 290); ("X", 0)] (3#100) (2#100)
             (1#100000) (fun _ => 11) 92 11 0 4 2)
          (update_func ∅) with
  | Ok frame => (rows frame).*1 = [0; 0 + 0 * 2 + 2; 0 + 1 * 2 + 2]
  | Raise _ => False
  end.
Proof. reflexivity. Qed.

Example run_simulation_without_init :
  run_simulation ∅ (delete "init" bare_system) (update_func ∅)
  = Raise (NameError "init").
Proof. reflexivity. Qed.

Example make_system_sample :
  make_system sample_params sample_data
  = Ok (system_of 290 (3#100) (2#100) (1#100000) 92 11 0 4).
Proof. reflexivity. Qed.

Example make_system_no_label_0 :
  make_system sample_params [mkObservation 2 350 26; mkObservation 4 287 130]
  = Raise (KeyError 0).
Proof. reflexivity. Qed.

Example series_sub_other_labels :
  series_sub [(0, 5); (2, 7)] [(2, 1); (4, 1)]
  = [(0, None); (2, Some (7 - 1)); (4, None)].
Proof. reflexivity. Qed.

Example indices_cell :
  indices sample_params
  = Ok [("S_G", 3#100); ("S_I", (1#100000) / (2#100))].
Proof. reflexivity. Qed.

Example make_system_empty_table :
  make_system sample_params [] = Raise IndexError.
Proof. reflexivity. Qed.

(** ** Lemmas on frames and time points *)

(** Rewrite with the bindings of names that are among the hypotheses. *)
Ltac resolve_names :=
  unfold name_num, name_state, name_fun;
  repeat match goal with
         | H : _ !! _ = _ |- _ => rewrite H
         end.

Lemma bind_Ok {A B} (a : A) (k : A → result B) : (x ← Ok a; k x) = k a.
Proof. reflexivity. Qed.

Lemma bind_Raise {A B} (e : exn) (k : A → result B) :
  (x ← Raise e; k x) = Raise e.
Proof. reflexivity. Qed.

Lemma Qeq_bool_false (a b : Q) : ¬ a == b → Qeq_bool a b = false.
Proof.
  intros H. destruct (Qeq_bool a b) eqn:E; [|done].
  apply Qeq_bool_iff in E. contradiction.
Qed.

Lemma find_label_earlier (rs : list (Q * State)) (t : Q) :
  Forall (fun r => r.1 < t) rs → find (fun r => Qeq_bool r.1 t) rs = None.
Proof.
  induction 1 as [|r rs Hr _ IH]; simpl; [done|].
  rewrite Qeq_bool_false; [done|]. intros E. rewrite E in Hr. lra.
Qed.

Lemma get_row_ends_at (frame : TimeFrame) (t t2 : Q) (state : State) :
  ends_at frame t state → t2 == t → get_row frame t2 = Ok state.
Proof.
  intros (before & t' & Hrows & Ht' & Hbefore) Ht2.
  unfold get_row. rewrite Hrows.
  assert (Hfind : ∀ rs, Forall (fun r : Q * State => r.1 < t) rs →
            find (fun r => Qeq_bool r.1 t2) (rs ++ [(t', state)])
            = Some (t', state)).
  { induction 1 as [|r rs Hr _ IH]; simpl.
    - assert (E : Qeq_bool t' t2 = true)
        by (apply Qeq_bool_iff; rewrite Ht', Ht2; reflexivity).
      by rewrite E.
    - rewrite Qeq_bool_false; [done|]. intros E. rewrite E, Ht2 in Hr. lra. }
  by rewrite Hfind.
Qed.

Lemma assign_row_later (rs : list (Q * State)) (t : Q) (s : State) :
  Forall (fun r => r.1 < t) rs → assign_row rs t s = rs ++ [(t, s)].
Proof.
  induction 1 as [|r rs Hr _ IH]; simpl; [done|].
  rewrite Qeq_bool_false, IH; [done|]. intros E. rewrite E in Hr. lra.
Qed.

Lemma set_row_ends_at (frame : TimeFrame) (t dt t2 : Q) (s s' : State) :
  0 < dt → ends_at frame t s → t2 == t →
  rows (set_row frame (t2 + dt) s') = rows frame ++ [(t2 + dt, s')] ∧
  ends_at (set_row frame (t2 + dt) s') (t + dt) s'.
Proof.
  intros Hdt (before & t' & Hrows & Ht' & Hbefore) Ht2.
  assert (Hall : Forall (fun r : Q * State => r.1 < t2 + dt) (rows frame)).
  { rewrite Hrows. apply Forall_app. split.
    - eapply Forall_impl; [exact Hbefore|]. simpl. intros r Hr. lra.
    - repeat constructor. simpl. lra. }
  unfold ends_at. simpl. rewrite (assign_row_later _ _ _ Hall). split; [done|].
  exists (rows frame), (t2 + dt). split; [done|]. split; [lra|].
  eapply Forall_impl; [exact Hall|]. simpl. intros r Hr. lra.
Qed.

Lemma first_frame_ends_at (init : State) (t_0 : Q) :
  ends_at (first_frame init t_0) t_0 init.
Proof. exists [], t_0. split; [done|]. split; [reflexivity|constructor]. Qed.

Lemma run_steps_app (f : update_rule) (system : System) (dt : Q)
    (ts1 ts2 : list Q) (frame : TimeFrame) :
  run_steps f system dt (ts1 ++ ts2) frame
  = (frame1 ← run_steps f system dt ts1 frame;
     run_steps f system dt ts2 frame1).
Proof.
  revert frame. induction ts1 as [|t ts1 IH]; intros frame; simpl; [done|].
  destruct (get_row frame t) as [s|e]; simpl; [|done].
  destruct (f s t system) as [s'|e]; simpl; [|done].
  apply IH.
Qed.

(** On evenly spaced time points the loop is the trajectory of the rule,
    appended to the table; a rule that raises makes both raise alike. *)
Lemma run_steps_trajectory (f : update_rule) (system : System) (dt : Q)
    (ts : list Q) (frame : TimeFrame) (t : Q) (state : State) :
  0 < dt → evenly_spaced t dt ts → ends_at frame t state →
  run_steps f system dt ts frame
  = (new ← trajectory f system dt ts state;
     Ok (mkTimeFrame (columns frame) (rows frame ++ new))).
Proof.
  intros Hdt. revert frame t state.
  induction ts as [|t2 ts IH]; intros frame t state Hts Hend; simpl.
  - rewrite app_nil_r. by destruct frame.
  - destruct Hts as [Ht2 Hts].
    rewrite (get_row_ends_at _ _ _ _ Hend Ht2). simpl.
    destruct (f state t2 system) as [s'|e]; simpl; [|done].
    destruct (set_row_ends_at frame t dt t2 state s' Hdt Hend Ht2)
      as [Hrows Hend'].
    rewrite (IH _ _ _ Hts Hend'), Hrows.
    destruct (trajectory f system dt ts s') as [new|e]; simpl; [|done].
    by rewrite <- app_assoc.
Qed.

Lemma evenly_spaced_from (a b dt : Q) (ts : list Q) :
  a == b → evenly_spaced a dt ts → evenly_spaced b dt ts.
Proof.
  revert a b. induction ts as [|t ts IH]; intros a b Hab; simpl; [done|].
  intros [Ht Hts]. split; [by rewrite <- Hab|].
  apply (IH (a + dt) (b + dt)); [by rewrite Hab|done].
Qed.

Lemma evenly_spaced_seq (start step : Q) (k n : nat) :
  evenly_spaced (start + inject_Z (Z.of_nat k) * step) step
    ((fun i : nat => start + inject_Z (Z.of_nat i) * step) <$> seq k n).
Proof.
  revert k. induction n as [|n IH]; intros k; [done|].
  simpl. split; [reflexivity|].
  apply (evenly_spaced_from (start + inject_Z (Z.of_nat (S k)) * step));
    [|apply IH].
  rewrite Nat2Z.inj_succ. unfold Z.succ. rewrite inject_Z_plus. ring.
Qed.

Lemma linrange_evenly_spaced (start stop step : Q) :
  evenly_spaced start step (linrange start stop step).
Proof.
  unfold linrange. destruct (Qle_bool step 0); [done|].
  apply (evenly_spaced_from (start + inject_Z (Z.of_nat 0) * step));
    [simpl; ring|apply evenly_spaced_seq].
Qed.

Lemma trajectory_times (f : update_rule) (system : System) (dt : Q)
    (ts : list Q) (state : State) (new : list (Q * State)) :
  trajectory f system dt ts state = Ok new →
  new.*1 = (fun t => t + dt) <$> ts.
Proof.
  revert state new. induction ts as [|t ts IH]; intros state new; simpl.
  - by intros [= <-].
  - destruct (f state t system) as [s'|e]; simpl; [|done].
    destruct (trajectory f system dt ts s') as [rest|e] eqn:E; simpl; [|done].
    intros [= <-]. simpl. f_equal. exact (IH _ _ E).
Qed.

(** A rule that keeps the shape of the state and does not raise on that
    shape yields a whole trajectory of states of that shape. *)
Lemma trajectory_total (f : update_rule) (system : System) (dt : Q)
    (names : list string) (ts : list Q) (state : State) :
  (∀ s t, index s = names →
          ∃ s', f s t system = Ok s' ∧ index s' = names) →
  index state = names →
  ∃ new, trajectory f system dt ts state = Ok new ∧
         Forall (fun r => index r.2 = names) new.
Proof.
  intros Hf. revert state. induction ts as [|t ts IH]; intros state Hs; simpl.
  - by exists [].
  - destruct (Hf state t Hs) as (s' & -> & Hs'). simpl.
    destruct (IH s' Hs') as (rest & -> & Hrest). simpl.
    exists ((t + dt, s') :: rest). split; [done|]. by constructor.
Qed.

Lemma unpack_lookup (system : System) (globals : Namespace) (name : string)
    (v : value) :
  system !! name = Some v → unpack system globals !! name = Some v.
Proof. intros H. unfold unpack. by apply lookup_union_Some_l. Qed.

Lemma unpack_lookup_global (system : System) (globals : Namespace)
    (name : string) :
  system !! name = None →
  unpack system globals !! name = globals !! name.
Proof. intros H. unfold unpack. by apply lookup_union_r. Qed.

Lemma run_simulation_unfold (globals : Namespace) (system : System)
    (f : update_rule) (init : State) (t_0 t_end dt : Q) :
  unpack system globals !! "init" = Some (VState init) →
  unpack system globals !! "t_0" = Some (VNum t_0) →
  unpack system globals !! "t_end" = Some (VNum t_end) →
  unpack system globals !! "dt" = Some (VNum dt) →
  run_simulation globals system f
  = run_steps f system dt (linrange t_0 t_end dt) (first_frame init t_0).
Proof.
  intros Hinit Ht0 Htend Hdt. unfold run_simulation. by resolve_names.
Qed.

(** With a positive step the simulator returns the initial row followed by
    the trajectory of the rule, and raises what the rule raises. *)
Lemma run_simulation_trajectory (globals : Namespace) (system : System)
    (f : update_rule) (init : State) (t_0 t_end dt : Q) :
  unpack system globals !! "init" = Some (VState init) →
  unpack system globals !! "t_0" = Some (VNum t_0) →
  unpack system globals !! "t_end" = Some (VNum t_end) →
  unpack system globals !! "dt" = Some (VNum dt) →
  0 < dt →
  run_simulation globals system f
  = (new ← trajectory f system dt (linrange t_0 t_end dt) init;
     Ok (mkTimeFrame (index init) ((t_0, init) :: new))).
Proof.
  intros Hinit Ht0 Htend Hdt Hpos.
  rewrite (run_simulation_unfold _ _ _ _ _ _ _ Hinit Ht0 Htend Hdt).
  apply (run_steps_trajectory f system dt (linrange t_0 t_end dt)
           (first_frame init t_0) t_0 init Hpos).
  - apply linrange_evenly_spaced.
  - apply first_frame_ends_at.
Qed.

Lemma assign_row_elem (rs : list (Q * State)) (t : Q) (s : State)
    (r : Q * State) :
  r ∈ assign_row rs t s → r ∈ rs ∨ (r.2 = s ∧ r.1 == t).
Proof.
  induction rs as [|r0 rs IH]; simpl.
  - intros ->%list_elem_of_singleton. right. split; [done|reflexivity].
  - destruct (Qeq_bool r0.1 t) eqn:E.
    + intros [->|Hr]%elem_of_cons.
      * right. split; [done|]. by apply Qeq_bool_iff.
      * left. by right.
    + intros [->|Hr]%elem_of_cons.
      * left. by left.
      * destruct (IH Hr) as [?|?]; [left; by right|by right].
Qed.

(** Whatever the time points, every row the loop leaves in the table was
    there before or is the value the rule returned for some time point [t],
    stored under [t+dt]. *)
Lemma run_steps_rows (f : update_rule) (system : System) (dt : Q)
    (ts : list Q) (frame frame' : TimeFrame) :
  run_steps f system dt ts frame = Ok frame' →
  columns frame' = columns frame ∧
  ∀ r, r ∈ rows frame' →
       r ∈ rows frame ∨
       ∃ t s, t ∈ ts ∧ f s t system = Ok r.2 ∧ r.1 == t + dt.
Proof.
  revert frame. induction ts as [|t ts IH]; intros frame; simpl.
  - intros [= <-]. split; [done|]. intros r Hr. by left.
  - destruct (get_row frame t) as [s|e]; simpl; [|done].
    destruct (f s t system) as [s'|e] eqn:Hf; simpl; [|done].
    intros [Hcols Hrows]%IH. split; [done|].
    intros r Hr. destruct (Hrows r Hr) as [Hin|(t1 & s1 & Ht1 & Hf1 & Hl)].
    + destruct (assign_row_elem _ _ _ _ Hin) as [?|[Hs Hl]]; [by left|].
      right. exists t, s. rewrite Hs. split; [by left|done].
    + right. exists t1, s1. split; [by right|done].
Qed.

Lemma ends_at_from (frame : TimeFrame) (a b : Q) (s : State) :
  a == b → ends_at frame a s → ends_at frame b s.
Proof.
  intros Hab (before & t' & Hrows & Ht' & Hbefore).
  exists before, t'. split; [done|]. split; [by rewrite <- Hab|].
  eapply Forall_impl; [exact Hbefore|]. simpl. intros r Hr. by rewrite <- Hab.
Qed.

Lemma evenly_spaced_app (t dt : Q) (ts1 ts2 : list Q) :
  evenly_spaced t dt (ts1 ++ ts2) →
  evenly_spaced t dt ts1 ∧
  evenly_spaced (t + inject_Z (Z.of_nat (length ts1)) * dt) dt ts2.
Proof.
  revert t. induction ts1 as [|t1 ts1 IH]; intros t.
  - simpl. intros H. split; [done|].
    apply (evenly_spaced_from t); [ring|done].
  - intros [Ht1 [H1 H2]%IH]. split; [by split|].
    apply (evenly_spaced_from
             (t + dt + inject_Z (Z.of_nat (length ts1)) * dt)); [|done].
    change (length (t1 :: ts1)) with (S (length ts1)).
    rewrite Nat2Z.inj_succ. unfold Z.succ. rewrite inject_Z_plus. ring.
Qed.

(** With a positive step and evenly spaced time points the loop only adds
    rows after the ones the table has. *)
Lemma run_steps_grows (f : update_rule) (system : System) (dt : Q)
    (ts : list Q) (frame frame' : TimeFrame) (t : Q) (s : State) :
  0 < dt → evenly_spaced t dt ts → ends_at frame t s →
  run_steps f system dt ts frame = Ok frame' →
  rows frame `prefix_of` rows frame' ∧
  ∃ s', ends_at frame' (t + inject_Z (Z.of_nat (length ts)) * dt) s'.
Proof.
  intros Hdt. revert frame t s.
  induction ts as [|t2 ts IH]; intros frame t s Hts Hend; simpl.
  - intros [= <-]. split; [done|]. exists s.
    apply (ends_at_from frame t); [ring|done].
  - destruct Hts as [Ht2 Hts].
    rewrite (get_row_ends_at _ _ _ _ Hend Ht2). simpl.
    destruct (f s t2 system) as [s'|e]; simpl; [|done].
    destruct (set_row_ends_at frame t dt t2 s s' Hdt Hend Ht2)
      as [Hrows Hend'].
    intros [Hpre (s2 & Hend2)]%(IH _ _ _ Hts Hend'). split.
    + etrans; [|exact Hpre]. rewrite Hrows. by apply prefix_app_r.
    + exists s2. eapply ends_at_from; [|exact Hend2].
      rewrite Nat2Z.inj_succ. unfold Z.succ. rewrite inject_Z_plus. ring.
Qed.

Lemma linrange_positive (start stop step : Q) :
  0 < step →
  linrange start stop step
  = (fun i : nat => start + inject_Z (Z.of_nat i) * step)
      <$> seq 0 (Z.to_nat (Qfloor ((stop - start) / step))).
Proof.
  intros H. unfold linrange.
  destruct (Qle_bool step 0) eqn:E; [|done].
  apply Qle_bool_iff in E. lra.
Qed.

Lemma linrange_lookup (start stop step : Q) (i : nat) (t : Q) :
  0 < step → linrange start stop step !! i = Some t →
  t = start + inject_Z (Z.of_nat i) * step ∧
  (i < Z.to_nat (Qfloor ((stop - start) / step)))%nat.
Proof.
  intros H. rewrite (linrange_positive _ _ _ H), list_lookup_fmap.
  destruct (seq 0 _ !! i) as [j|] eqn:E; [|done].
  apply lookup_seq in E as [-> ?]. simpl. by intros [= <-].
Qed.


(** The recorded times: the label of row [i] is [t_0 + i*dt], there are no
    more rows than fit before [t_end]. *)
Lemma recorded_times_lookup (t_0 t_end dt : Q) (i : nat) (a : Q) :
  0 < dt →
  (t_0 :: ((fun t => t + dt) <$> linrange t_0 t_end dt)) !! i = Some a →
  a == t_0 + inject_Z (Z.of_nat i) * dt ∧
  (i <= Z.to_nat (Qfloor ((t_end - t_0) / dt)))%nat.
Proof.
  intros H. destruct i as [|i].
  - intros [= <-]. split; [simpl; ring|lia].
  - change ((t_0 :: ((fun t => t + dt) <$> linrange t_0 t_end dt)) !! S i)
      with (((fun t => t + dt) <$> linrange t_0 t_end dt) !! i).
    rewrite list_lookup_fmap.
    destruct (linrange t_0 t_end dt !! i) as [t|] eqn:E; [|done].
    apply linrange_lookup in E as [-> Hi]; [|done].
    intros [= <-]. split; [|lia].
    rewrite Nat2Z.inj_succ. unfold Z.succ. rewrite inject_Z_plus. ring.
Qed.


Lemma update_func_keeps_fields (globals : Namespace) (system : System)
    (k1 k2 k3 Gb Ib dt : Q) (I : Q → Q) (s : State) (t : Q) :
  unpack system globals !! "k1" = Some (VNum k1) →
  unpack system globals !! "k2" = Some (VNum k2) →
  unpack system globals !! "k3" = Some (VNum k3) →
  unpack system globals !! "Gb" = Some (VNum Gb) →
  unpack system globals !! "Ib" = Some (VNum Ib) →
  unpack system globals !! "dt" = Some (VNum dt) →
  unpack system globals !! "I" = Some (VFun I) →
  index s = ["G"; "X"] →
  ∃ s', update_func globals s t system = Ok s' ∧ index s' = ["G"; "X"].
Proof.
  intros Hk1 Hk2 Hk3 HGb HIb Hdt HI Hs.
  destruct s as [|[n1 G] [|[n2 X] [|? ?]]]; try done.
  eexists. split.
  - unfold update_func. resolve_names. simpl. reflexivity.
  - reflexivity.
Qed.

(** ** Lemmas on [make_system] *)

Lemma make_system_ok (G0 k1 k2 k3 : Q) (data : DataFrame)
    (Gb Ib t_0 t_end : Q) :
  series_at (data_glucose data) 0 = Ok Gb →
  series_at (data_insulin data) 0 = Ok Ib →
  get_first_label data = Ok t_0 →
  get_last_label data = Ok t_end →
  make_system [G0; k1; k2; k3] data
  = Ok (system_of G0 k1 k2 k3 Gb Ib t_0 t_end).
Proof.
  intros HGb HIb Ht0 Htend. unfold make_system. simpl.
  by rewrite HGb, HIb, Ht0, Htend.
Qed.

Lemma make_system_inv (params : list Q) (data : DataFrame) (system : System) :
  make_system params data = Ok system →
  ∃ G0 k1 k2 k3 Gb Ib t_0 t_end,
    params = [G0; k1; k2; k3] ∧
    series_at (data_glucose data) 0 = Ok Gb ∧
    series_at (data_insulin data) 0 = Ok Ib ∧
    get_first_label data = Ok t_0 ∧
    get_last_label data = Ok t_end ∧
    system = system_of G0 k1 k2 k3 Gb Ib t_0 t_end.
Proof.
  unfold make_system.
  destruct params as [|G0 [|k1 [|k2 [|k3 [|? ?]]]]]; try done. simpl.
  destruct (series_at (data_glucose data) 0) as [Gb|]; [|done]. simpl.
  destruct (series_at (data_insulin data) 0) as [Ib|]; [|done]. simpl.
  destruct (get_first_label data) as [t_0|]; [|done]. simpl.
  destruct (get_last_label data) as [t_end|]; [|done]. simpl.
  intros [= <-]. by exists G0, k1, k2, k3, Gb, Ib, t_0, t_end.
Qed.

Lemma make_system_wrong_length (params : list Q) (data : DataFrame) :
  length params ≠ 4%nat → make_system params data = Raise ValueError.
Proof.
  intros H. unfold make_system.
  by destruct params as [|G0 [|k1 [|k2 [|k3 [|? ?]]]]].
Qed.

(** A table with a row labelled 0 has a first and a last label. *)
Lemma labelled_data_has_ends (data : DataFrame) (Gb : Q) :
  series_at (data_glucose data) 0 = Ok Gb →
  ∃ t_0 t_end, get_first_label data = Ok t_0 ∧
               get_last_label data = Ok t_end.
Proof.
  destruct data as [|o data]; [done|]. intros _.
  unfold get_first_label, get_last_label, data_index.
  exists (time o). destruct (last (time <$> o :: data)) as [t|] eqn:E.
  - by exists t.
  - by apply last_None in E.
Qed.

Lemma series_at_first (data : DataFrame) (o : observation) :
  time o == 0 →
  series_at (data_glucose (o :: data)) 0 = Ok (glucose o) ∧
  series_at (data_insulin (o :: data)) 0 = Ok (insulin o).
Proof.
  intros H%Qeq_bool_iff. unfold series_at. simpl. by rewrite H.
Qed.

Lemma linrange_empty_span (t_0 t_end dt : Q) :
  0 < dt → t_end == t_0 → linrange t_0 t_end dt = [].
Proof.
  intros Hdt E. rewrite (linrange_positive _ _ _ Hdt).
  assert (E0 : (t_end - t_0) / dt == 0) by (rewrite E; field; lra).
  by rewrite (Qfloor_comp _ _ E0).
Qed.

(** ** Lemmas on the slope rule and the solver *)

Lemma slope_func_unpacked (globals : Namespace) (system : System)
    (state : State) (t G X k1 k2 k3 Gb Ib : Q) (I : Q → Q) :
  values state = [G; X] →
  unpack system globals !! "k1" = Some (VNum k1) →
  unpack system globals !! "k2" = Some (VNum k2) →
  unpack system globals !! "k3" = Some (VNum k3) →
  unpack system globals !! "Gb" = Some (VNum Gb) →
  unpack system globals !! "Ib" = Some (VNum Ib) →
  unpack system globals !! "I" = Some (VFun I) →
  slope_func globals state t system
  = Ok [- k1 * (G - Gb) - X * G; k3 * (I t - Ib) - k2 * X].
Proof.
  intros Hs Hk1 Hk2 Hk3 HGb HIb HI.
  unfold slope_func. rewrite Hs. by resolve_names.
Qed.

Lemma run_ode_solver_unfold (solve : ode_solver) (globals : Namespace)
    (system : System) (slope : slope_rule) (t_eval : option (list Q))
    (init : State) (t_0 t_end : Q) :
  unpack system globals !! "init" = Some (VState init) →
  unpack system globals !! "t_0" = Some (VNum t_0) →
  unpack system globals !! "t_end" = Some (VNum t_end) →
  run_ode_solver solve globals system slope t_eval
  = (bunch ← solve (fun t y => slope (zip (index init) y) t system)
               (t_0, t_end) (values init) t_eval;
     if forallb (fun r => bool_decide (length r.2 = length init))
          (sol_rows bunch)
     then Ok (mkTimeFrame (index init)
                ((fun r => (r.1, zip (index init) r.2)) <$> sol_rows bunch),
              mkDiagnostics (sol_success bunch) (sol_message bunch))
     else Raise ValueError).
Proof.
  intros Hinit Ht0 Htend. unfold run_ode_solver. by resolve_names.
Qed.

Lemma rows_have_length (n : nat) (srows : list (Q * list Q)) :
  Forall (fun r => length r.2 = n) srows →
  forallb (fun r => bool_decide (length r.2 = n)) srows = true.
Proof.
  induction 1 as [|r srows Hr _ IH]; simpl; [done|].
  by rewrite (bool_decide_eq_true_2 _ Hr), IH.
Qed.

Lemma vec_eq_step (h : Q) (y y0 d : list Q) :
  vec_eq y y0 → length d = length y0 → Forall (Qeq 0) d →
  vec_eq (zip_with (fun yi di => yi + h * di) y d) y0.
Proof.
  intros Hy. revert d. induction Hy as [|a b y y0 Hab _ IH]; intros d Hlen Hd.
  - constructor.
  - destruct d as [|c d]; [done|]. simpl.
    apply Forall_cons in Hd as [Hc Hd]. constructor.
    + rewrite <- Hc, Hab. ring.
    + apply IH; [by injection Hlen|done].
Qed.

Lemma euler_rows_total (f : Q → list Q → result (list Q)) (n : nat)
    (t : Q) (y : list Q) (t_eval : list Q) :
  (∀ t y, length y = n → ∃ d, f t y = Ok d ∧ length d = n) →
  length y = n →
  ∃ srows, euler_rows f t y t_eval = Ok srows ∧ srows.*1 = t_eval ∧
           Forall (fun r => length r.2 = n) srows.
Proof.
  intros Hf. revert t y.
  induction t_eval as [|t' t_eval IH]; intros t y Hy; simpl.
  - by exists [].
  - destruct (Hf t y Hy) as (d & -> & Hd). simpl.
    assert (Hy' : length (zip_with (fun yi di => yi + (t' - t) * di) y d) = n)
      by (rewrite length_zip_with; lia).
    destruct (IH t' _ Hy') as (later & -> & Htimes & Hlen). simpl.
    eexists. split; [done|]. simpl. split; [by f_equal|by constructor].
Qed.

Lemma euler_rows_equilibrium (f : Q → list Q → result (list Q))
    (y0 : list Q) (t : Q) (y : list Q) (t_eval : list Q)
    (srows : list (Q * list Q)) :
  (∀ t y, vec_eq y y0 →
          ∃ d, f t y = Ok d ∧ length d = length y0 ∧ Forall (Qeq 0) d) →
  vec_eq y y0 →
  euler_rows f t y t_eval = Ok srows →
  Forall (fun r => vec_eq r.2 y0) srows.
Proof.
  intros Hf. revert t y srows.
  induction t_eval as [|t' t_eval IH]; intros t y srows Hy; simpl.
  - intros [= <-]. constructor.
  - destruct (Hf t y Hy) as (d & -> & Hlen & Hd). simpl.
    pose proof (vec_eq_step (t' - t) y y0 d Hy Hlen Hd) as Hy'.
    destruct (euler_rows f t' _ t_eval) as [later|e] eqn:E; simpl; [|done].
    intros [= <-]. constructor; [done|]. by apply (IH _ _ _ Hy' E).
Qed.

Lemma vec_eq_refl (y : list Q) : vec_eq y y.
Proof. induction y; constructor; [reflexivity|done]. Qed.

(** Forward Euler meets what is asked of the external solver. *)
Lemma euler_honours_t_eval : honours_t_eval euler_ivp.
Proof.
  intros f t_0 t_end y0 t_eval Hf _ _. unfold euler_ivp. simpl.
  destruct (euler_rows_total f (length y0) t_0 y0 t_eval Hf eq_refl)
    as (srows & -> & Htimes & Hlen).
  simpl. eexists. by split.
Qed.

Lemma euler_keeps_equilibrium : keeps_equilibrium euler_ivp.
Proof.
  intros f span y0 t_eval sol Hf. unfold euler_ivp.
  destruct (euler_rows f span.1 y0 (default [span.2] t_eval))
    as [srows|e] eqn:E; simpl; [|done].
  intros [= <-]. simpl.
  by apply (euler_rows_equilibrium f y0 _ y0 _ _ Hf (vec_eq_refl y0) E).
Qed.

(** ** Lemmas on labelled columns *)

Lemma increasing_tail (t : Q) (ts : list Q) :
  increasing (t :: ts) → increasing ts.
Proof.
  intros H i j a b Hij Ha Hb. apply (H (S i) (S j) a b); [lia|done..].
Qed.

Lemma find_increasing {A} (s : list (Q * A)) (i : nat) (e : Q * A) :
  increasing s.*1 → s !! i = Some e →
  find (fun e' => Qeq_bool e'.1 e.1) s = Some e.
Proof.
  revert i. induction s as [|e0 s IH]; intros i Hinc Hi; [done|].
  destruct i as [|i]; simpl in *.
  - injection Hi as ->.
    assert (E : Qeq_bool e.1 e.1 = true) by (apply Qeq_bool_iff; reflexivity).
    by rewrite E.
  - assert (Hlt : e0.1 < e.1).
    { apply (Hinc 0%nat (S i)); [lia|done|].
      simpl. by rewrite list_lookup_fmap, Hi. }
    rewrite Qeq_bool_false; [|intros E; rewrite E in Hlt; lra].
    apply (IH i); [|done]. by apply (increasing_tail e0.1).
Qed.

Lemma same_labels_refl (ts : list Q) : same_labels ts ts = true.
Proof.
  unfold same_labels. rewrite bool_decide_eq_true_2; [|done]. simpl.
  induction ts as [|t ts IH]; simpl; [done|].
  assert (E : Qeq_bool t t = true) by (apply Qeq_bool_iff; reflexivity).
  by rewrite E.
Qed.

Lemma increasing_within_span (ts : list Q) (t_0 t_end : Q) :
  increasing ts → head ts = Some t_0 → last ts = Some t_end →
  Forall (fun t => t_0 <= t ∧ t <= t_end) ts.
Proof.
  intros Hinc Hhead Hlast. apply Forall_lookup. intros i t Hi.
  rewrite last_lookup in Hlast.
  assert (Hilt : (i < length ts)%nat) by (by apply lookup_lt_Some in Hi).
  assert (H0 : ts !! 0%nat = Some t_0) by (by destruct ts).
  split.
  - destruct i as [|i]; [rewrite Hi in H0; injection H0 as ->; lra|].
    apply Qlt_le_weak. apply (Hinc 0%nat (S i)); [lia|done..].
  - destruct (decide (i = pred (length ts))) as [->|Hne].
    + rewrite Hi in Hlast. injection Hlast as ->. lra.
    + apply Qlt_le_weak. apply (Hinc i (pred (length ts))); [lia|done..].
Qed.

Lemma increasing_0_2_4 : increasing [0; 2; 4].
Proof.
  intros [|[|[|i]]] [|[|[|j]]] a b Hij Ha Hb; try (simpl in Hij; lia);
    try discriminate Ha; try discriminate Hb;
    injection Ha as <-; injection Hb as <-; reflexivity.
Qed.

Lemma data_glucose_index (data : DataFrame) :
  (data_glucose data).*1 = data_index data.
Proof.
  unfold data_glucose, data_index. by rewrite <- list_fmap_compose.
Qed.

(** The column G of a table built from two-component rows. *)
Lemma frame_column_G (srows : list (Q * list Q)) :
  Forall (fun r => length r.2 = 2%nat) srows →
  frame_column
    (mkTimeFrame ["G"; "X"]
       ((fun r => (r.1, zip ["G"; "X"] r.2)) <$> srows)) "G"
  = Ok ((fun r => (r.1, default 0 (head r.2))) <$> srows).
Proof.
  intros H. unfold frame_column. simpl. f_equal.
  induction H as [|[t y] srows Hy _ IH]; [done|].
  destruct y as [|a [|b [|? ?]]]; try done.
  simpl. f_equal. exact IH.
Qed.

(** Subtracting two columns that carry the same increasing labels. *)
Lemma series_sub_aligned (a b : Series) :
  a.*1 = b.*1 → increasing a.*1 →
  (series_sub a b).*1 = a.*1 ∧
  ∀ i t x y, a !! i = Some (t, x) → b !! i = Some (t, y) →
             series_sub a b !! i = Some (t, Some (x - y)).
Proof.
  intros Hab Hinc. unfold series_sub. cbv zeta.
  rewrite <- Hab, same_labels_refl. split.
  - rewrite <- list_fmap_compose. apply list_fmap_id.
  - intros i t x y Ha Hb.
    rewrite !list_lookup_fmap, Ha. simpl. do 2 f_equal.
    unfold series_get.
    pose proof (find_increasing a i (t, x) Hinc Ha) as Hfa.
    rewrite Hab in Hinc.
    pose proof (find_increasing b i (t, y) Hinc Hb) as Hfb.
    simpl in Hfa, Hfb. by rewrite Hfa, Hfb.
Qed.

(** ** The objective reads the notebook only for the signal I *)

Lemma slope_func_globals (globals1 globals2 : Namespace)
    (G0 k1 k2 k3 Gb Ib t_0 t_end : Q) (state : State) (t : Q) :
  globals1 !! "I" = globals2 !! "I" →
  slope_func globals1 state t (system_of G0 k1 k2 k3 Gb Ib t_0 t_end)
  = slope_func globals2 state t (system_of G0 k1 k2 k3 Gb Ib t_0 t_end).
Proof.
  intros HI. unfold slope_func, name_num, name_fun.
  set (system := system_of G0 k1 k2 k3 Gb Ib t_0 t_end).
  rewrite !(unpack_lookup system _ "k1" (VNum k1) eq_refl).
  rewrite !(unpack_lookup system _ "k2" (VNum k2) eq_refl).
  rewrite !(unpack_lookup system _ "k3" (VNum k3) eq_refl).
  rewrite !(unpack_lookup system _ "Gb" (VNum Gb) eq_refl).
  rewrite !(unpack_lookup system _ "Ib" (VNum Ib) eq_refl).
  rewrite !(unpack_lookup_global system _ "I" eq_refl).
  by rewrite HI.
Qed.

Lemma run_ode_solver_globals (solve : ode_solver)
    (globals1 globals2 : Namespace) (G0 k1 k2 k3 Gb Ib t_0 t_end : Q)
    (t_eval : option (list Q)) :
  globals1 !! "I" = globals2 !! "I" →
  run_ode_solver solve globals1 (system_of G0 k1 k2 k3 Gb Ib t_0 t_end)
    (slope_func globals1) t_eval
  = run_ode_solver solve globals2 (system_of G0 k1 k2 k3 Gb Ib t_0 t_end)
      (slope_func globals2) t_eval.
Proof.
  intros HI. set (system := system_of G0 k1 k2 k3 Gb Ib t_0 t_end).
  rewrite !(run_ode_solver_unfold solve _ system _ t_eval
              [("G", G0); ("X", 0)] t_0 t_end
              (unpack_lookup system _ "init" _ eq_refl)
              (unpack_lookup system _ "t_0" _ eq_refl)
              (unpack_lookup system _ "t_end" _ eq_refl)).
  assert (E : (fun t y => slope_func globals1
                            (zip (index [("G", G0); ("X", 0)]) y) t system)
            = (fun t y => slope_func globals2
                            (zip (index [("G", G0); ("X", 0)]) y) t system)).
  { apply functional_extensionality. intros t.
    apply functional_extensionality. intros y.
    by apply slope_func_globals. }
  by rewrite E.
Qed.

Lemma error_func_globals (solve : ode_solver)
    (globals1 globals2 : Namespace) (params : list Q) (data : DataFrame) :
  globals1 !! "I" = globals2 !! "I" →
  error_func solve globals1 params data
  = error_func solve globals2 params data.
Proof.
  intros HI. unfold error_func.
  destruct (make_system params data) as [system|e] eqn:Hmake; [|done].
  apply make_system_inv in Hmake
    as (G0 & k1 & k2 & k3 & Gb & Ib & t_0 & t_end & _ & _ & _ & _ & _ & ->).
  cbn [mbind result_bind].
  by rewrite (run_ode_solver_globals solve globals1 globals2 _ _ _ _ _ _ _ _
                _ HI).
Qed.

(** ** Lemmas on the row labelled 0 *)

Lemma find_label_absent {A} (s : list (Q * A)) (t : Q) :
  Forall (fun e => ¬ e.1 == t) s →
  find (fun e => Qeq_bool e.1 t) s = None.
Proof.
  induction 1 as [|e s He _ IH]; simpl; [done|].
  by rewrite (Qeq_bool_false _ _ He).
Qed.

Lemma find_label_first {A} (before after : list (Q * A)) (e : Q * A) (t : Q) :
  Forall (fun e' => ¬ e'.1 == t) before → e.1 == t →
  find (fun e' => Qeq_bool e'.1 t) (before ++ e :: after) = Some e.
Proof.
  intros Hb He. induction Hb as [|e' before He' _ IH]; simpl.
  - apply Qeq_bool_iff in He. by rewrite He.
  - by rewrite (Qeq_bool_false _ _ He').
Qed.

Lemma series_at_one_row (before after : DataFrame) (o : observation) :
  Forall (fun o' => ¬ time o' == 0) before → time o == 0 →
  series_at (data_glucose (before ++ o :: after)) 0 = Ok (glucose o) ∧
  series_at (data_insulin (before ++ o :: after)) 0 = Ok (insulin o).
Proof.
  intros Hbefore Ho.
  assert (H : ∀ g : observation → Q,
            series_at ((fun o' => (time o', g o')) <$> before ++ o :: after) 0
            = Ok (g o)).
  { intros g. unfold series_at.
    destruct ((fun o' => (time o', g o')) <$> before ++ o :: after) eqn:E;
      [by destruct before|].
    rewrite <- E, fmap_app, fmap_cons.
    rewrite (find_label_first _ _ (time o, g o) 0); [done| |done].
    apply Forall_fmap. eapply Forall_impl; [exact Hbefore|]. done. }
  split; [apply (H glucose)|apply (H insulin)].
Qed.

(** ** The update rule and the stepping harness *)

Lemma update_func_unpacked (globals : Namespace) (system : System)
    (state : State) (t G X k1 k2 k3 Gb Ib dt : Q) (I : Q → Q) :
  values state = [G; X] →
  unpack system globals !! "k1" = Some (VNum k1) →
  unpack system globals !! "k2" = Some (VNum k2) →
  unpack system globals !! "k3" = Some (VNum k3) →
  unpack system globals !! "Gb" = Some (VNum Gb) →
  unpack system globals !! "Ib" = Some (VNum Ib) →
  unpack system globals !! "dt" = Some (VNum dt) →
  unpack system globals !! "I" = Some (VFun I) →
  update_func globals state t system
  = Ok [("G", G + (- k1 * (G - Gb) - X * G) * dt);
        ("X", X + (k3 * (I t - Ib) - k2 * X) * dt)].
Proof.
  intros Hs Hk1 Hk2 Hk3 HGb HIb Hdt HI.
  unfold update_func. rewrite Hs. by resolve_names.
Qed.

(** C1. For a state (G, X), a time t and a system carrying k1, k2, k3, Gb,
    Ib, dt and the signal I, [update_func] returns the state with
    G' = G + (-k1*(G - Gb) - X*G) * dt and
    X' = X + (k3*(I(t) - Ib) - k2*X) * dt: the rule itself multiplies each
    derivative by dt and adds it.  [run_simulation] integrates nothing:
    whatever update rule it is given, each row of the table it returns is
    the initial state under t_0 or a state the rule returned for a visited
    time t, stored unchanged under t+dt. *)
Theorem update_func_euler_step (globals : Namespace) (system : System)
    (t G X k1 k2 k3 Gb Ib dt : Q) (I : Q → Q) :
  system !! "k1" = Some (VNum k1) →
  system !! "k2" = Some (VNum k2) →
  system !! "k3" = Some (VNum k3) →
  system !! "Gb" = Some (VNum Gb) →
  system !! "Ib" = Some (VNum Ib) →
  system !! "dt" = Some (VNum dt) →
  system !! "I" = Some (VFun I) →
  update_func globals [("G", G); ("X", X)] t system
  = Ok [("G", G + (- k1 * (G - Gb) - X * G) * dt);
        ("X", X + (k3 * (I t - Ib) - k2 * X) * dt)]
  ∧ ∀ (f : update_rule) (frame : TimeFrame),
      run_simulation globals system f = Ok frame →
      ∃ init t_0 t_end,
        unpack system globals !! "init" = Some (VState init) ∧
        unpack system globals !! "t_0" = Some (VNum t_0) ∧
        unpack system globals !! "t_end" = Some (VNum t_end) ∧
        columns frame = index init ∧
        ∀ r, r ∈ rows frame →
             (r.1 == t_0 ∧ r.2 = init) ∨
             ∃ t' s, t' ∈ linrange t_0 t_end dt ∧
                     f s t' system = Ok r.2 ∧ r.1 == t' + dt.
Proof.
  intros Hk1 Hk2 Hk3 HGb HIb Hdt HI. split.
  - apply (update_func_unpacked globals system _ t G X k1 k2 k3 Gb Ib dt I);
      [done|by apply unpack_lookup..].
  - intros f frame. unfold run_simulation, name_state, name_num.
    rewrite (unpack_lookup _ globals _ _ Hdt).
    destruct (unpack system globals !! "init") as [[|init|]|]; try done.
    destruct (unpack system globals !! "t_0") as [[t_0| |]|]; try done.
    destruct (unpack system globals !! "t_end") as [[t_end| |]|]; try done.
    simpl. intros [Hcols Hrows]%run_steps_rows.
    exists init, t_0, t_end. repeat split; [done|].
    intros r Hr. destruct (Hrows r Hr) as [Hin|?]; [|by right].
    left. simpl in Hin. apply list_elem_of_singleton in Hin. subst r.
    split; [reflexivity|done].
Qed.

Lemma update_func_euler_step_witness :
  update_func ∅ [("G", 290); ("X", 0)] 4
    (notebook_system [("G", 290); ("X", 0)] (3#100) (2#100) (1#100000)
       (fun t => 11 + t) 92 11 0 182 2)
  = Ok [("G", 290 + (- (3#100) * (290 - 92) - 0 * 290) * 2);
        ("X", 0 + ((1#100000) * (11 + 4 - 11) - (2#100) * 0) * 2)].
Proof.
  apply (update_func_euler_step ∅
           (notebook_system [("G", 290); ("X", 0)] (3#100) (2#100)
              (1#100000) (fun t => 11 + t) 92 11 0 182 2)
           4 290 0 (3#100) (2#100) (1#100000) 92 11 2 (fun t => 11 + t));
    reflexivity.
Defined.

(** C7. When the update rule raises at some step, [run_simulation] raises
    the same exception: it is not caught, the step is not tried again and
    the remaining time points are not visited. *)
Theorem run_simulation_propagates (globals : Namespace) (system : System)
    (f : update_rule) (init : State) (t_0 t_end dt t : Q)
    (done_ts rest_ts : list Q) (frame : TimeFrame) (state : State)
    (e : exn) :
  unpack system globals !! "init" = Some (VState init) →
  unpack system globals !! "t_0" = Some (VNum t_0) →
  unpack system globals !! "t_end" = Some (VNum t_end) →
  unpack system globals !! "dt" = Some (VNum dt) →
  linrange t_0 t_end dt = done_ts ++ t :: rest_ts →
  run_steps f system dt done_ts (first_frame init t_0) = Ok frame →
  get_row frame t = Ok state →
  f state t system = Raise e →
  run_simulation globals system f = Raise e.
Proof.
  intros Hinit Ht0 Htend Hdt Hts Hdone Hrow Hraise.
  rewrite (run_simulation_unfold _ _ _ _ _ _ _ Hinit Ht0 Htend Hdt).
  rewrite Hts, run_steps_app, Hdone. simpl.
  by rewrite Hrow; simpl; rewrite Hraise.
Qed.

Lemma run_simulation_propagates_witness :
  run_simulation ∅
    (notebook_system [("G", 290); ("X", 0)] 0 0 0 (fun _ => 11) 92 11 0 4 2)
    failing_rule
  = Raise (RuleError "no step from 2").
Proof.
  apply (run_simulation_propagates ∅ _ failing_rule [("G", 290); ("X", 0)]
           0 4 2 (0 + 1 * 2) [0 + 0 * 2] []
           (mkTimeFrame ["G"; "X"]
              [(0, [("G", 290); ("X", 0)]);
               (0 + 0 * 2 + 2, [("G", 290); ("X", 0)])])
           [("G", 290); ("X", 0)]); reflexivity.
Defined.

(** ** The indices *)

(** C10. For parameters (G0, k1, k2, k3) with k2 not zero, [indices]
    returns State(S_G=k1, S_I=k3/k2); with k2 zero the division raises
    [ZeroDivisionError] and no value is returned. *)
Theorem indices_spec (G0 k1 k2 k3 : Q) :
  (¬ k2 == 0 →
   indices [G0; k1; k2; k3] = Ok [("S_G", k1); ("S_I", k3 / k2)]) ∧
  (k2 == 0 → indices [G0; k1; k2; k3] = Raise ZeroDivisionError).
Proof.
  unfold indices. simpl. split; intros H.
  - by rewrite (Qeq_bool_false _ _ H).
  - apply Qeq_bool_iff in H. by rewrite H.
Qed.

Lemma indices_spec_witness :
  indices [290; 3#100; 2#100; 1#100000]
  = Ok [("S_G", 3#100); ("S_I", (1#100000) / (2#100))] ∧
  indices [290; 3#100; 0; 1#100000] = Raise ZeroDivisionError.
Proof.
  split.
  - apply (indices_spec 290 (3#100) (2#100) (1#100000)). by intros H.
  - apply (indices_spec 290 (3#100) 0 (1#100000)). reflexivity.
Defined.

(** ** The recorded times *)



(** ** States and rows are not changed in place *)

(** C9. In one run of [run_simulation] with [update_func], on a system
    with a positive step, every state in the table has the fields G and X
    in this order, and rows once recorded stay as they are: the table after
    any number of steps is a beginning of the table returned, whose first
    row is still the initial state at t_0. *)
Theorem run_simulation_keeps_rows (globals : Namespace) (system : System)
    (G0 X0 k1 k2 k3 Gb Ib t_0 t_end dt : Q) (I : Q → Q) :
  let init := [("G", G0); ("X", X0)] in
  system !! "init" = Some (VState init) →
  system !! "k1" = Some (VNum k1) →
  system !! "k2" = Some (VNum k2) →
  system !! "k3" = Some (VNum k3) →
  system !! "Gb" = Some (VNum Gb) →
  system !! "Ib" = Some (VNum Ib) →
  system !! "I" = Some (VFun I) →
  system !! "t_0" = Some (VNum t_0) →
  system !! "t_end" = Some (VNum t_end) →
  system !! "dt" = Some (VNum dt) →
  0 < dt →
  ∃ frame,
    run_simulation globals system (update_func globals) = Ok frame ∧
    columns frame = ["G"; "X"] ∧
    Forall (fun r => index r.2 = ["G"; "X"]) (rows frame) ∧
    rows frame !! 0%nat = Some (t_0, init) ∧
    ∀ k, ∃ frame_k,
      run_steps (update_func globals) system dt
        (take k (linrange t_0 t_end dt)) (first_frame init t_0)
      = Ok frame_k ∧
      rows frame_k `prefix_of` rows frame.
Proof.
  intros init Hinit Hk1 Hk2 Hk3 HGb HIb HI Ht0 Htend Hdt Hpos.
  apply (unpack_lookup _ globals) in Hinit, Hk1, Hk2, Hk3, HGb, HIb, HI,
    Ht0, Htend, Hdt.
  assert (Hf : ∀ s t, index s = ["G"; "X"] →
            ∃ s', update_func globals s t system = Ok s' ∧
                  index s' = ["G"; "X"])
    by (intros s t; by apply (update_func_keeps_fields globals system
                                 k1 k2 k3 Gb Ib dt I)).
  pose proof (run_simulation_unfold _ _ (update_func globals) _ _ _ _
                Hinit Ht0 Htend Hdt) as Hloop.
  rewrite (run_simulation_trajectory _ _ _ _ _ _ _ Hinit Ht0 Htend Hdt Hpos)
    in Hloop |- *.
  destruct (trajectory_total (update_func globals) system dt ["G"; "X"]
              (linrange t_0 t_end dt) init Hf eq_refl)
    as (new & Hnew & Hfields).
  rewrite Hnew in Hloop |- *. simpl in Hloop |- *.
  eexists. split; [done|]. simpl. split; [done|].
  split; [by constructor|]. split; [done|].
  intros k. symmetry in Hloop.
  rewrite <- (take_drop k (linrange t_0 t_end dt)), run_steps_app in Hloop.
  destruct (run_steps (update_func globals) system dt
              (take k (linrange t_0 t_end dt)) (first_frame init t_0))
    as [frame_k|e] eqn:Hk; [|done].
  exists frame_k. split; [done|]. simpl in Hloop.
  pose proof (linrange_evenly_spaced t_0 t_end dt) as Hts.
  rewrite <- (take_drop k (linrange t_0 t_end dt)) in Hts.
  apply evenly_spaced_app in Hts as [Hts1 Hts2].
  destruct (run_steps_grows _ _ _ _ _ _ _ _ Hpos Hts1
              (first_frame_ends_at init t_0) Hk) as [_ (s_k & Hend)].
  by destruct (run_steps_grows _ _ _ _ _ _ _ _ Hpos Hts2 Hend Hloop)
    as [Hpre _].
Qed.

Lemma run_simulation_keeps_rows_witness :
  ∃ frame,
    run_simulation ∅
      (notebook_system [("G", 290); ("X", 0)] (3#100) (2#100) (1#100000)
         (fun _ => 11) 92 11 0 4 2)
      (update_func ∅) = Ok frame ∧
    columns frame = ["G"; "X"] ∧
    Forall (fun r => index r.2 = ["G"; "X"]) (rows frame) ∧
    rows frame !! 0%nat = Some (0, [("G", 290); ("X", 0)]).
Proof.
  destruct (run_simulation_keeps_rows ∅
              (notebook_system [("G", 290); ("X", 0)] (3#100) (2#100)
                 (1#100000) (fun _ => 11) 92 11 0 4 2)
              290 0 (3#100) (2#100) (1#100000) 92 11 0 4 2 (fun _ => 11))
    as (frame & Hrun & Hcols & Hfields & Hfirst & _);
    try reflexivity.
  exists frame. repeat split; assumption.
Defined.

(** ** What [make_system] builds *)

(** C5, as the code has it.  For parameters (G0, k1, k2, k3) and a table
    with a row labelled 0, [make_system] returns a config that holds the
    four parameters, the initial state State(G=G0, X=0), the baselines Gb
    and Ib read from the glucose and insulin columns at label 0 (the first
    row when the time index starts at 0) and the start and end times taken
    from the first and last labels of the time index.  The config holds no
    step size dt and no input signal I. *)
Theorem make_system_fields (G0 k1 k2 k3 : Q) (data : DataFrame) (Gb Ib : Q) :
  series_at (data_glucose data) 0 = Ok Gb →
  series_at (data_insulin data) 0 = Ok Ib →
  ∃ system t_0 t_end,
    make_system [G0; k1; k2; k3] data = Ok system ∧
    system !! "G0" = Some (VNum G0) ∧
    system !! "k1" = Some (VNum k1) ∧
    system !! "k2" = Some (VNum k2) ∧
    system !! "k3" = Some (VNum k3) ∧
    system !! "init" = Some (VState [("G", G0); ("X", 0)]) ∧
    system !! "Gb" = Some (VNum Gb) ∧
    system !! "Ib" = Some (VNum Ib) ∧
    head (data_index data) = Some t_0 ∧
    system !! "t_0" = Some (VNum t_0) ∧
    last (data_index data) = Some t_end ∧
    system !! "t_end" = Some (VNum t_end) ∧
    system !! "dt" = None ∧
    system !! "I" = None ∧
    (∀ o rest, data = o :: rest → time o == 0 →
               Gb = glucose o ∧ Ib = insulin o).
Proof.
  intros HGb HIb.
  destruct (labelled_data_has_ends data Gb HGb) as (t_0 & t_end & Ht0 & Htend).
  exists (system_of G0 k1 k2 k3 Gb Ib t_0 t_end), t_0, t_end.
  split; [by apply make_system_ok|].
  do 7 (split; [reflexivity|]).
  split.
  { unfold get_first_label in Ht0.
    by destruct (data_index data); [|injection Ht0 as ->]. }
  split; [reflexivity|]. split.
  { unfold get_last_label in Htend.
    by destruct (last (data_index data)); [injection Htend as ->|]. }
  do 3 (split; [reflexivity|]).
  intros o rest -> Ho. destruct (series_at_first rest o Ho) as [E1 E2].
  rewrite E1 in HGb. rewrite E2 in HIb. by injection HGb as <-; injection HIb as <-.
Qed.

Lemma make_system_fields_witness :
  ∃ system,
    make_system sample_params sample_data = Ok system ∧
    system !! "Gb" = Some (VNum 92) ∧ system !! "Ib" = Some (VNum 11) ∧
    system !! "t_0" = Some (VNum 0) ∧ system !! "t_end" = Some (VNum 4).
Proof.
  destruct (make_system_fields 290 (3#100) (2#100) (1#100000) sample_data
              92 11 eq_refl eq_refl)
    as (system & t_0 & t_end & Hmake & _ & _ & _ & _ & _ & HGb & HIb &
        Hfirst & Ht0 & Hlast & Htend & _).
  injection Hfirst as <-. injection Hlast as <-.
  exists system. repeat split; assumption.
Defined.

(** C5 as stated fails: the config [make_system] returns for the
    parameters and the data of the notebook has no step size. *)
Lemma make_system_has_no_step :
  ∃ system,
    make_system sample_params sample_data = Ok system ∧
    system !! "dt" = None.
Proof. eexists. split; reflexivity. Qed.

(** ** No configuration is validated *)

(** C4, as the code has it.  [make_system] rejects a parameter sequence
    that has not exactly four values ([ValueError]), but it checks neither
    the time span nor the step: for four parameters and a table in which
    exactly one row is labelled 0 it returns a config whose t_0 and t_end
    are the first and last labels of the table, whatever their order, and
    which holds no step size.  [run_simulation], having found init, t_0
    and t_end, rejects a config in which it cannot find dt ([NameError] at
    entry, before any step), but it does not check the parameters of the
    update rule: when init, t_0, t_end and a positive dt are found and
    t_end equals t_0, it returns the table that holds the initial state,
    whatever else the config lacks.  A parameter
    that is missing is reported by [update_func] itself when it is called
    on a state of two fields, as [NameError] for the first name among k1,
    Gb, k3, I, Ib, k2, dt that it cannot find (the names before it being
    bound to numbers, and I to a function). *)
Theorem configuration_is_not_checked :
  (∀ params data,
     length params ≠ 4%nat → make_system params data = Raise ValueError) ∧
  (∀ G0 k1 k2 k3 before o after,
     Forall (fun o' => ¬ time o' == 0) before →
     time o == 0 →
     Forall (fun o' => ¬ time o' == 0) after →
     ∃ system t_0 t_end,
       make_system [G0; k1; k2; k3] (before ++ o :: after) = Ok system ∧
       head (data_index (before ++ o :: after)) = Some t_0 ∧
       system !! "t_0" = Some (VNum t_0) ∧
       last (data_index (before ++ o :: after)) = Some t_end ∧
       system !! "t_end" = Some (VNum t_end) ∧
       system !! "dt" = None) ∧
  (∀ globals system (f : update_rule) init t_0 t_end,
     unpack system globals !! "init" = Some (VState init) →
     unpack system globals !! "t_0" = Some (VNum t_0) →
     unpack system globals !! "t_end" = Some (VNum t_end) →
     unpack system globals !! "dt" = None →
     run_simulation globals system f = Raise (NameError "dt")) ∧
  (∀ globals system (f : update_rule) init t_0 t_end dt,
     unpack system globals !! "init" = Some (VState init) →
     unpack system globals !! "t_0" = Some (VNum t_0) →
     unpack system globals !! "t_end" = Some (VNum t_end) →
     unpack system globals !! "dt" = Some (VNum dt) →
     0 < dt → t_end == t_0 →
     run_simulation globals system f = Ok (first_frame init t_0)) ∧
  (∀ globals system state t G X before name after,
     values state = [G; X] →
     update_func_names = before ++ name :: after →
     Forall (bound_as_used (unpack system globals)) before →
     unpack system globals !! name = None →
     update_func globals state t system = Raise (NameError name)).
Proof.
  split; [exact make_system_wrong_length|]. split.
  { intros G0 k1 k2 k3 before o after Hbefore Ho _.
    destruct (series_at_one_row before after o Hbefore Ho) as [HGb HIb].
    destruct (labelled_data_has_ends _ _ HGb) as (t_0 & t_end & Ht0 & Htend).
    exists (system_of G0 k1 k2 k3 (glucose o) (insulin o) t_0 t_end),
      t_0, t_end.
    split; [by apply make_system_ok|]. split.
    { unfold get_first_label in Ht0.
      by destruct (data_index _); [|injection Ht0 as ->]. }
    split; [reflexivity|]. split.
    { unfold get_last_label in Htend.
      by destruct (last (data_index _)); [injection Htend as ->|]. }
    split; reflexivity. }
  split.
  { intros globals system f init t_0 t_end Hinit Ht0 Htend Hdt.
    unfold run_simulation. by resolve_names. }
  split.
  { intros globals system f init t_0 t_end dt Hinit Ht0 Htend Hdt Hpos E.
    rewrite (run_simulation_unfold _ _ _ _ _ _ _ Hinit Ht0 Htend Hdt).
    by rewrite (linrange_empty_span _ _ _ Hpos E). }
  intros globals system state t G X before name after Hs Hnames Hbound Hnone.
  unfold update_func, name_num, name_fun. rewrite Hs. simpl.
  unfold update_func_names in Hnames.
  repeat (destruct before as [|? before]; simpl in Hnames;
          [ injection Hnames as <- _; by rewrite Hnone
          | injection Hnames as <- Hnames;
            apply Forall_cons in Hbound as [Hx Hbound];
            unfold bound_as_used in Hx;
            match type of Hx with
            | context [?m !! ?k] =>
                destruct (m !! k) as [[?| |?]|] eqn:?;
                try first [done | discriminate | congruence]
            end; clear Hx; simpl ]).
  by destruct before.
Qed.

Lemma configuration_is_not_checked_witness :
  make_system [290; 3#100] sample_data = Raise ValueError ∧
  (∃ system t_0 t_end,
     make_system sample_params reversed_data = Ok system ∧
     head (data_index reversed_data) = Some t_0 ∧
     system !! "t_0" = Some (VNum t_0) ∧
     last (data_index reversed_data) = Some t_end ∧
     system !! "t_end" = Some (VNum t_end) ∧
     system !! "dt" = None) ∧
  run_simulation ∅ (delete "dt" bare_system) (update_func ∅)
  = Raise (NameError "dt") ∧
  run_simulation ∅ bare_system (update_func ∅)
  = Ok (first_frame [("G", 290); ("X", 0)] 0) ∧
  update_func ∅ [("G", 290); ("X", 0)] 0
    (delete "Ib"
       (notebook_system [("G", 290); ("X", 0)] (3#100) (2#100) (1#100000)
          (fun _ => 11) 92 11 0 4 2))
  = Raise (NameError "Ib").
Proof.
  destruct configuration_is_not_checked as (H1 & H2 & H3 & H4 & H5).
  split; [apply H1; simpl; lia|].
  split.
  { apply (H2 290 (3#100) (2#100) (1#100000)
             [mkObservation 4 287 130; mkObservation 2 350 26]
             (mkObservation 0 92 11) []);
      [repeat constructor; discriminate|reflexivity|constructor]. }
  split; [apply (H3 ∅ (delete "dt" bare_system) (update_func ∅)
                   [("G", 290); ("X", 0)] 0 0); reflexivity|].
  split; [apply (H4 ∅ bare_system (update_func ∅) [("G", 290); ("X", 0)]
                   0 0 2); reflexivity|].
  apply (H5 ∅ _ [("G", 290); ("X", 0)] 0 290 0 ["k1"; "Gb"; "k3"; "I"] "Ib"
           ["k2"; "dt"]); [reflexivity|reflexivity| |reflexivity].
  repeat (apply Forall_cons; split;
          [vm_compute; first [reflexivity | discriminate]|]).
  constructor.
Defined.

(** C4 as stated fails: a time span that runs backwards is accepted by
    [make_system], and a config without any parameter of the update rule
    is accepted by [run_simulation], which returns a table. *)
Lemma malformed_config_accepted :
  (∃ system,
     make_system sample_params reversed_data = Ok system ∧
     system !! "t_0" = Some (VNum 4) ∧ system !! "t_end" = Some (VNum 0) ∧
     0 < 4) ∧
  bare_system !! "k1" = None ∧
  run_simulation ∅ bare_system (update_func ∅)
  = Ok (mkTimeFrame ["G"; "X"] [(0, [("G", 290); ("X", 0)])]).
Proof.
  split; [|split; reflexivity].
  eexists. repeat split; reflexivity.
Qed.

(** ** No drift with zero rate constants *)

(** C6, as the code has it.  With k1, k2 and k3 zero in the config and an
    initial state whose X is zero (as in every initial state the notebook
    builds), the continuous simulation driven by [slope_func] returns a
    table that has, at each evaluation time, the initial state.  The
    solver is any one that honours the evaluation times and leaves an
    equilibrium where it is. *)
Theorem no_drift_at_rest (solve : ode_solver) (globals : Namespace)
    (system : System) (G0 X0 k1 k2 k3 Gb Ib t_0 t_end : Q) (I : Q → Q)
    (t_eval : list Q) :
  let init := [("G", G0); ("X", X0)] in
  honours_t_eval solve → keeps_equilibrium solve →
  unpack system globals !! "init" = Some (VState init) →
  unpack system globals !! "k1" = Some (VNum k1) →
  unpack system globals !! "k2" = Some (VNum k2) →
  unpack system globals !! "k3" = Some (VNum k3) →
  unpack system globals !! "Gb" = Some (VNum Gb) →
  unpack system globals !! "Ib" = Some (VNum Ib) →
  unpack system globals !! "I" = Some (VFun I) →
  unpack system globals !! "t_0" = Some (VNum t_0) →
  unpack system globals !! "t_end" = Some (VNum t_end) →
  k1 == 0 → k2 == 0 → k3 == 0 → X0 == 0 →
  increasing t_eval →
  Forall (fun t => t_0 <= t ∧ t <= t_end) t_eval →
  ∃ results details,
    run_ode_solver solve globals system (slope_func globals) (Some t_eval)
    = Ok (results, details) ∧
    (rows results).*1 = t_eval ∧
    Forall (fun r => state_eq r.2 init) (rows results).
Proof.
  intros init Hhon Hkeep Hinit Hk1 Hk2 Hk3 HGb HIb HI Ht0 Htend
    E1 E2 E3 EX Hinc Hspan.
  rewrite (run_ode_solver_unfold _ _ _ _ _ _ _ _ Hinit Ht0 Htend).
  set (f := fun t y => slope_func globals (zip (index init) y) t system).
  assert (Hslope : ∀ t a b,
            f t [a; b] = Ok [- k1 * (a - Gb) - b * a;
                             k3 * (I t - Ib) - k2 * b])
    by (intros t a b;
        by apply (slope_func_unpacked globals system _ t a b k1 k2 k3 Gb Ib I)).
  destruct (Hhon f t_0 t_end (values init) t_eval) as (sol & Hsol & Ht & Hlen);
    [|done|done|].
  { intros t [|a [|b [|? ?]]]; try done. intros _.
    rewrite Hslope. by eexists. }
  rewrite Hsol. simpl. rewrite (rows_have_length 2 _ Hlen).
  do 2 eexists. split; [done|]. simpl. split.
  { rewrite <- list_fmap_compose. exact Ht. }
  apply Forall_fmap.
  assert (Hrest : Forall (fun r => vec_eq r.2 (values init)) (sol_rows sol)).
  { apply (Hkeep f (t_0, t_end) (values init) (Some t_eval) sol); [|done].
    intros t y Hy.
    destruct y as [|a [|b [|? ?]]]; try by (apply Forall2_length in Hy).
    apply Forall2_cons in Hy as [Ha Hy]. apply Forall2_cons in Hy as [Hb _].
    simpl in Hb. rewrite Hslope. eexists. split; [done|]. split; [done|].
    apply Forall_cons. split; [rewrite E1, Hb, EX; ring|].
    apply Forall_cons. split; [rewrite E2, E3; ring|constructor]. }
  eapply Forall_impl; [exact Hrest|]. simpl.
  intros [t [|a [|b [|? ?]]]] Hy; try by (apply Forall2_length in Hy).
  apply Forall2_cons in Hy as [Ha Hy]. apply Forall2_cons in Hy as [Hb _].
  by repeat constructor.
Qed.

Lemma no_drift_at_rest_witness :
  ∃ results details,
    run_ode_solver euler_ivp ∅
      (notebook_system [("G", 290); ("X", 0)] 0 0 0 (fun t => 11 + t)
         92 11 0 4 2)
      (slope_func ∅) (Some [0; 2; 4])
    = Ok (results, details) ∧
    (rows results).*1 = [0; 2; 4] ∧
    Forall (fun r => state_eq r.2 [("G", 290); ("X", 0)]) (rows results).
Proof.
  apply (no_drift_at_rest euler_ivp ∅
           (notebook_system [("G", 290); ("X", 0)] 0 0 0 (fun t => 11 + t)
              92 11 0 4 2)
           290 0 0 0 0 92 11 0 4 (fun t => 11 + t) [0; 2; 4]
           euler_honours_t_eval euler_keeps_equilibrium);
    try reflexivity.
  - exact increasing_0_2_4.
  - repeat constructor; simpl; discriminate.
Defined.

(** C6 as stated fails: with k1 = k2 = k3 = 0 and the initial state
    (G = 290, X = 1) the slope of G is -X*G = -290, not zero, and a solver
    that keeps every equilibrium moves G away from 290. *)
Lemma drift_with_zero_rates :
  slope_func ∅ [("G", 290); ("X", 1)] 0
    (notebook_system [("G", 290); ("X", 1)] 0 0 0 (fun _ => 11) 92 11 0 1 2)
  = Ok [- 0 * (290 - 92) - 1 * 290; 0 * (11 - 11) - 0 * 1] ∧
  keeps_equilibrium euler_ivp ∧
  ∃ results details r G,
    run_ode_solver euler_ivp ∅
      (notebook_system [("G", 290); ("X", 1)] 0 0 0 (fun _ => 11) 92 11 0 1 2)
      (slope_func ∅) (Some [0; 1])
    = Ok (results, details) ∧
    rows results !! 1%nat = Some r ∧ r.1 = 1 ∧
    field r.2 "G" = Some G ∧ G == 0 ∧ ¬ G == 290.
Proof.
  split; [reflexivity|]. split; [exact euler_keeps_equilibrium|].
  do 4 eexists. split; [reflexivity|]. split; [reflexivity|].
  split; [reflexivity|]. split; [reflexivity|]. split; [reflexivity|].
  discriminate.
Qed.

(** ** The residuals *)

(** C3.  For parameters (G0, k1, k2, k3) and a table of observations with
    increasing times, [error_func] returns [results.G - data.glucose]: its
    time index is the time index of the data, it has one entry per
    observation, and the entry at a time is the simulated G at that time
    minus the glucose observed at that time.  The solver is any one that
    returns one row per requested evaluation time. *)
Theorem error_func_residuals (solve : ode_solver) (globals : Namespace)
    (G0 k1 k2 k3 : Q) (data : DataFrame) (Gb Ib : Q) (I : Q → Q) :
  honours_t_eval solve →
  globals !! "I" = Some (VFun I) →
  series_at (data_glucose data) 0 = Ok Gb →
  series_at (data_insulin data) 0 = Ok Ib →
  increasing (data_index data) →
  ∃ system results details errors,
    make_system [G0; k1; k2; k3] data = Ok system ∧
    run_ode_solver solve globals system (slope_func globals)
      (Some (data_index data)) = Ok (results, details) ∧
    error_func solve globals [G0; k1; k2; k3] data = Ok errors ∧
    errors.*1 = data_index data ∧
    length errors = length data ∧
    ∀ i o, data !! i = Some o →
           ∃ r G, rows results !! i = Some r ∧ r.1 = time o ∧
                  field r.2 "G" = Some G ∧
                  errors !! i = Some (time o, Some (G - glucose o)).
Proof.
  intros Hhon HI HGb HIb Hinc.
  destruct (labelled_data_has_ends data Gb HGb) as (t_0 & t_end & Ht0 & Htend).
  set (system := system_of G0 k1 k2 k3 Gb Ib t_0 t_end).
  pose proof (make_system_ok G0 k1 k2 k3 data Gb Ib t_0 t_end
                HGb HIb Ht0 Htend) as Hmake.
  fold system in Hmake.
  assert (HI' : unpack system globals !! "I" = Some (VFun I))
    by (by rewrite unpack_lookup_global).
  set (init := [("G", G0); ("X", 0)]).
  pose proof (run_ode_solver_unfold solve globals system (slope_func globals)
                (Some (data_index data)) init t_0 t_end
                (unpack_lookup system globals "init" (VState init) eq_refl)
                (unpack_lookup system globals "t_0" (VNum t_0) eq_refl)
                (unpack_lookup system globals "t_end" (VNum t_end) eq_refl))
    as Hrun.
  destruct (Hhon (fun t y => slope_func globals (zip (index init) y) t system)
              t_0 t_end (values init) (data_index data))
    as (sol & Hsol & Htimes & Hlen).
  { intros t [|a [|b [|? ?]]]; try done. intros _.
    rewrite (slope_func_unpacked globals system _ t a b k1 k2 k3 Gb Ib I);
      [by eexists|done|by apply unpack_lookup..|done]. }
  { exact Hinc. }
  { apply increasing_within_span; [done|..].
    - unfold get_first_label in Ht0.
      by destruct (data_index data); [|injection Ht0 as ->].
    - unfold get_last_label in Htend.
      by destruct (last (data_index data)); [injection Htend as ->|]. }
  set (results := mkTimeFrame ["G"; "X"]
         ((fun r : Q * list Q => (r.1, zip ["G"; "X"] r.2)) <$> sol_rows sol)).
  assert (Hrun' :
    run_ode_solver solve globals system (slope_func globals)
      (Some (data_index data))
    = Ok (results, mkDiagnostics (sol_success sol) (sol_message sol))).
  { rewrite Hrun, Hsol. simpl. by rewrite (rows_have_length 2 _ Hlen). }
  set (G := (fun r : Q * list Q => (r.1, default 0 (head r.2)))
              <$> sol_rows sol).
  assert (HG1 : G.*1 = data_index data).
  { unfold G. by rewrite <- list_fmap_compose. }
  destruct (series_sub_aligned G (data_glucose data)) as [Hidx Hentry].
  { by rewrite HG1, data_glucose_index. }
  { by rewrite HG1. }
  exists system, results, (mkDiagnostics (sol_success sol) (sol_message sol)),
    (series_sub G (data_glucose data)).
  split; [exact Hmake|]. split; [exact Hrun'|]. split.
  { unfold error_func. rewrite Hmake. cbn [mbind result_bind].
    rewrite Hrun'. cbn [mbind result_bind]. unfold results.
    by rewrite (frame_column_G _ Hlen). }
  split; [by rewrite Hidx|]. split.
  { rewrite <- (length_fmap fst), Hidx, HG1. apply length_fmap. }
  intros i o Ho. simpl.
  assert (Hti : (sol_rows sol).*1 !! i = Some (time o)).
  { rewrite Htimes. unfold data_index. by rewrite list_lookup_fmap, Ho. }
  rewrite list_lookup_fmap in Hti.
  destruct (sol_rows sol !! i) as [[t y]|] eqn:Hrow; [|done].
  injection Hti as Hti. simpl in Hti. subst t.
  assert (Hy : length y = 2%nat)
    by (by apply (proj1 (Forall_lookup _ _) Hlen i (time o, y))).
  destruct y as [|a [|b [|? ?]]]; try done.
  exists (time o, [("G", a); ("X", b)]), a.
  split; [by rewrite list_lookup_fmap, Hrow|].
  split; [done|]. split; [done|].
  apply Hentry.
  - unfold G. by rewrite list_lookup_fmap, Hrow.
  - unfold data_glucose. by rewrite list_lookup_fmap, Ho.
Qed.

Lemma error_func_residuals_witness :
  ∃ errors,
    error_func euler_ivp (<["I" := VFun (fun t => 11 + t)]> ∅)
      sample_params sample_data = Ok errors ∧
    errors.*1 = [0; 2; 4] ∧ length errors = 3%nat.
Proof.
  destruct (error_func_residuals euler_ivp
              (<["I" := VFun (fun t => 11 + t)]> ∅)
              290 (3#100) (2#100) (1#100000) sample_data 92 11
              (fun t => 11 + t) euler_honours_t_eval)
    as (system & results & details & errors & _ & _ & Herr & Hidx & Hlen & _);
    try reflexivity.
  - exact increasing_0_2_4.
  - exists errors. repeat split; assumption.
Defined.

(** ** The fit is a function of its inputs *)

(** C8.  Two runs of [fit_leastsq] with the same guess and the same data
    return the same best parameters and diagnostics, in whatever state the
    notebook is at each run, as long as the slope rule is the same in
    both, that is as long as the signal I it reads is the same: neither
    the objective nor the fit depends on anything else. *)
Theorem fit_leastsq_deterministic (solve : ode_solver)
    (leastsq : (list Q → result Residuals) → list Q →
               result (list Q * Diagnostics))
    (globals1 globals2 : Namespace) (params : list Q) (data : DataFrame) :
  globals1 !! "I" = globals2 !! "I" →
  (∀ p, error_func solve globals1 p data = error_func solve globals2 p data) ∧
  fit_leastsq leastsq (error_func solve globals1) params data
  = fit_leastsq leastsq (error_func solve globals2) params data.
Proof.
  intros HI.
  assert (E : ∀ p, error_func solve globals1 p data
                   = error_func solve globals2 p data)
    by (intros p; by apply error_func_globals).
  split; [exact E|]. unfold fit_leastsq. f_equal.
  apply functional_extensionality. exact E.
Qed.

Lemma fit_leastsq_deterministic_witness :
  fit_leastsq single_evaluation
    (error_func euler_ivp
       (<["I" := VFun (fun t => 11 + t)]> (<["k1" := VNum 5]> ∅)))
    sample_params sample_data
  = fit_leastsq single_evaluation
      (error_func euler_ivp (<["I" := VFun (fun t => 11 + t)]> ∅))
      sample_params sample_data.
Proof.
  apply (fit_leastsq_deterministic euler_ivp single_evaluation
           (<["I" := VFun (fun t => 11 + t)]> (<["k1" := VNum 5]> ∅))
           (<["I" := VFun (fun t => 11 + t)]> ∅)
           sample_params sample_data).
  reflexivity.
Defined.

(** * Further properties of the notebook's functions *)

(** ** The update rule is one Euler step of the slope rule *)

(** X1. [update_func] raises whatever [slope_func] raises on the same
    arguments; where [slope_func] returns the derivatives (dG, dX) of a
    state (G, X), [update_func] looks up dt and returns
    State(G = G + dG*dt, X = X + dX*dt). *)
Theorem update_func_steps_slope_func (globals : Namespace) (state : State)
    (t : Q) (system : System) :
  match slope_func globals state t system with
  | Raise e => update_func globals state t system = Raise e
  | Ok d =>
      ∃ G X dG dX,
        values state = [G; X] ∧ d = [dG; dX] ∧
        update_func globals state t system
        = (dt ← name_num (unpack system globals) "dt";
           Ok [("G", G + dG * dt); ("X", X + dX * dt)])
  end.
Proof.
  unfold slope_func, update_func, name_num, name_fun.
  destruct (values state) as [|G [|X [|? ?]]]; simpl; try done.
  destruct (unpack system globals !! "k1") as [[k1| |]|]; simpl; try done.
  destruct (unpack system globals !! "Gb") as [[Gb| |]|]; simpl; try done.
  destruct (unpack system globals !! "k3") as [[k3| |]|]; simpl; try done.
  destruct (unpack system globals !! "I") as [[| |I]|]; simpl; try done.
  destruct (unpack system globals !! "Ib") as [[Ib| |]|]; simpl; try done.
  destruct (unpack system globals !! "k2") as [[k2| |]|]; simpl; try done.
  by eexists _, _, _, _.
Qed.

(** ** What the notebook's globals can and cannot change *)

Lemma run_steps_ext (f g : update_rule) (system1 system2 : System) (dt : Q)
    (ts : list Q) (frame : TimeFrame) :
  (∀ s t, f s t system1 = g s t system2) →
  run_steps f system1 dt ts frame = run_steps g system2 dt ts frame.
Proof.
  intros Hfg. revert frame. induction ts as [|t ts IH]; intros frame; [done|].
  simpl. destruct (get_row frame t) as [s|e]; simpl; [|done].
  rewrite Hfg. destruct (g s t system2) as [s'|e]; simpl; [|done]. apply IH.
Qed.

Lemma update_func_shadows (globals1 globals2 : Namespace) (system : System)
    (state : State) (t : Q) (v1 v2 v3 v4 v5 v6 v7 : value) :
  system !! "k1" = Some v1 → system !! "k2" = Some v2 →
  system !! "k3" = Some v3 → system !! "Gb" = Some v4 →
  system !! "Ib" = Some v5 → system !! "dt" = Some v6 →
  system !! "I" = Some v7 →
  update_func globals1 state t system = update_func globals2 state t system.
Proof.
  intros H1 H2 H3 H4 H5 H6 H7. unfold update_func, name_num, name_fun.
  by rewrite !(unpack_lookup _ _ _ _ H1), !(unpack_lookup _ _ _ _ H2),
    !(unpack_lookup _ _ _ _ H3), !(unpack_lookup _ _ _ _ H4),
    !(unpack_lookup _ _ _ _ H5), !(unpack_lookup _ _ _ _ H6),
    !(unpack_lookup _ _ _ _ H7).
Qed.

(** X2. A system that has a field for each of the ten names the simulation
    reads (init, t_0, t_end, dt, k1, k2, k3, Gb, Ib, I) hides the notebook:
    [run_simulation] with [update_func] returns the same table, or raises
    the same exception, whatever the notebook has bound to any name. *)
Theorem run_simulation_ignores_globals (globals1 globals2 : Namespace)
    (system : System) :
  Forall (fun name => is_Some (system !! name))
    ["init"; "t_0"; "t_end"; "dt"; "k1"; "k2"; "k3"; "Gb"; "Ib"; "I"] →
  run_simulation globals1 system (update_func globals1)
  = run_simulation globals2 system (update_func globals2).
Proof.
  intros H.
  assert (Hin : ∀ name, name ∈ ["init"; "t_0"; "t_end"; "dt"; "k1"; "k2";
                                "k3"; "Gb"; "Ib"; "I"] →
                 ∀ globals, unpack system globals !! name = system !! name ∧
                            is_Some (system !! name)).
  { intros name Hname globals.
    destruct (proj1 (Forall_forall _ _) H name Hname) as [v Hv].
    split; [|by exists v]. by rewrite (unpack_lookup _ _ _ _ Hv). }
  assert (Hu : ∀ s t, update_func globals1 s t system
                      = update_func globals2 s t system).
  { intros s t.
    destruct (Hin "k1" ltac:(repeat constructor) ∅) as [_ [v1 H1]].
    destruct (Hin "k2" ltac:(repeat constructor) ∅) as [_ [v2 H2]].
    destruct (Hin "k3" ltac:(repeat constructor) ∅) as [_ [v3 H3]].
    destruct (Hin "Gb" ltac:(repeat constructor) ∅) as [_ [v4 H4]].
    destruct (Hin "Ib" ltac:(repeat constructor) ∅) as [_ [v5 H5]].
    destruct (Hin "dt" ltac:(repeat constructor) ∅) as [_ [v6 H6]].
    destruct (Hin "I" ltac:(repeat constructor) ∅) as [_ [v7 H7]].
    by apply (update_func_shadows _ _ _ _ _ v1 v2 v3 v4 v5 v6 v7). }
  unfold run_simulation, name_state, name_num.
  rewrite !(proj1 (Hin "init" ltac:(repeat constructor) _)).
  rewrite !(proj1 (Hin "t_0" ltac:(repeat constructor) _)).
  rewrite !(proj1 (Hin "t_end" ltac:(repeat constructor) _)).
  rewrite !(proj1 (Hin "dt" ltac:(repeat constructor) _)).
  destruct (system !! "init") as [[|init|]|]; try done.
  destruct (system !! "t_0") as [[t_0| |]|]; try done.
  destruct (system !! "t_end") as [[t_end| |]|]; try done.
  destruct (system !! "dt") as [[dt| |]|]; try done.
  simpl. by apply run_steps_ext.
Qed.

Lemma run_simulation_ignores_globals_witness :
  run_simulation (<["k1" := VNum 5]> (<["dt" := VNum 1]> ∅))
    (notebook_system [("G", 290); ("X", 0)] (3#100) (2#100) (1#100000)
       (fun _ => 11) 92 11 0 4 2)
    (update_func (<["k1" := VNum 5]> (<["dt" := VNum 1]> ∅)))
  = run_simulation ∅
      (notebook_system [("G", 290); ("X", 0)] (3#100) (2#100) (1#100000)
         (fun _ => 11) 92 11 0 4 2)
      (update_func ∅).
Proof.
  apply (run_simulation_ignores_globals
           (<["k1" := VNum 5]> (<["dt" := VNum 1]> ∅)) ∅).
  repeat (apply Forall_cons; split; [by eexists|]). constructor.
Defined.

(** ** The config of [make_system] in the two simulators *)

Lemma update_func_resolved (globals : Namespace) (system : System)
    (state : State) (t k1 k2 k3 Gb Ib dt : Q) (I : Q → Q) :
  unpack system globals !! "k1" = Some (VNum k1) →
  unpack system globals !! "k2" = Some (VNum k2) →
  unpack system globals !! "k3" = Some (VNum k3) →
  unpack system globals !! "Gb" = Some (VNum Gb) →
  unpack system globals !! "Ib" = Some (VNum Ib) →
  unpack system globals !! "dt" = Some (VNum dt) →
  unpack system globals !! "I" = Some (VFun I) →
  update_func globals state t system
  = ('(G, X) ← unpack2 (values state);
     Ok [("G", G + (- k1 * (G - Gb) - X * G) * dt);
         ("X", X + (k3 * (I t - Ib) - k2 * X) * dt)]).
Proof.
  intros Hk1 Hk2 Hk3 HGb HIb Hdt HI. unfold update_func.
  destruct (unpack2 (values state)) as [[G X]|e]; simpl; [|done].
  by resolve_names.
Qed.

(** X3. A config built by [make_system] has no step size: in a notebook
    that has no global dt, [run_simulation] on it raises
    [NameError] for dt, whatever the update rule, before any step. *)
Theorem run_simulation_on_fitted_config (globals : Namespace)
    (params : list Q) (data : DataFrame) (system : System)
    (f : update_rule) :
  make_system params data = Ok system →
  globals !! "dt" = None →
  run_simulation globals system f = Raise (NameError "dt").
Proof.
  intros (G0 & k1 & k2 & k3 & Gb & Ib & t_0 & t_end & _ & _ & _ & _ & _ & ->)
    %make_system_inv Hdt.
  set (system := system_of G0 k1 k2 k3 Gb Ib t_0 t_end).
  unfold run_simulation, name_state, name_num.
  rewrite (unpack_lookup system globals "init" _ eq_refl).
  rewrite (unpack_lookup system globals "t_0" _ eq_refl).
  rewrite (unpack_lookup system globals "t_end" _ eq_refl).
  by rewrite (unpack_lookup_global system globals "dt" eq_refl), Hdt.
Qed.

Lemma run_simulation_on_fitted_config_witness :
  run_simulation (<["I" := VFun (fun t => 11 + t)]> ∅)
    (system_of 290 (3#100) (2#100) (1#100000) 92 11 0 4)
    (update_func (<["I" := VFun (fun t => 11 + t)]> ∅))
  = Raise (NameError "dt").
Proof.
  apply (run_simulation_on_fitted_config _ sample_params sample_data);
    reflexivity.
Defined.

(** X4. When the notebook does have a global dt and a global I, the names
    a config of [make_system] lacks are taken from the notebook without
    notice: [run_simulation] with [update_func] on that config gives what
    it gives on the config of cell 8 built from the same values, that
    global I and that global dt. *)
Theorem run_simulation_uses_notebook_names (globals : Namespace)
    (params : list Q) (data : DataFrame) (system : System) (dt : Q)
    (I : Q → Q) :
  make_system params data = Ok system →
  globals !! "dt" = Some (VNum dt) →
  globals !! "I" = Some (VFun I) →
  ∃ G0 k1 k2 k3 Gb Ib t_0 t_end,
    system = system_of G0 k1 k2 k3 Gb Ib t_0 t_end ∧
    run_simulation globals system (update_func globals)
    = run_simulation ∅
        (notebook_system [("G", G0); ("X", 0)] k1 k2 k3 I Gb Ib t_0 t_end dt)
        (update_func ∅).
Proof.
  intros (G0 & k1 & k2 & k3 & Gb & Ib & t_0 & t_end & _ & _ & _ & _ & _ & ->)
    %make_system_inv Hdt HI.
  exists G0, k1, k2, k3, Gb, Ib, t_0, t_end. split; [done|].
  set (system := system_of G0 k1 k2 k3 Gb Ib t_0 t_end).
  set (cell8 := notebook_system [("G", G0); ("X", 0)] k1 k2 k3 I Gb Ib
                  t_0 t_end dt).
  assert (Hdt' : unpack system globals !! "dt" = Some (VNum dt))
    by (by rewrite (unpack_lookup_global system globals "dt" eq_refl)).
  assert (HI' : unpack system globals !! "I" = Some (VFun I))
    by (by rewrite (unpack_lookup_global system globals "I" eq_refl)).
  rewrite (run_simulation_unfold globals system _ [("G", G0); ("X", 0)]
             t_0 t_end dt
             (unpack_lookup system globals "init" _ eq_refl)
             (unpack_lookup system globals "t_0" _ eq_refl)
             (unpack_lookup system globals "t_end" _ eq_refl) Hdt').
  rewrite (run_simulation_unfold ∅ cell8 _ [("G", G0); ("X", 0)]
             t_0 t_end dt
             (unpack_lookup cell8 ∅ "init" _ eq_refl)
             (unpack_lookup cell8 ∅ "t_0" _ eq_refl)
             (unpack_lookup cell8 ∅ "t_end" _ eq_refl)
             (unpack_lookup cell8 ∅ "dt" _ eq_refl)).
  apply run_steps_ext. intros s t.
  rewrite (update_func_resolved globals system s t k1 k2 k3 Gb Ib dt I
             (unpack_lookup system globals "k1" _ eq_refl)
             (unpack_lookup system globals "k2" _ eq_refl)
             (unpack_lookup system globals "k3" _ eq_refl)
             (unpack_lookup system globals "Gb" _ eq_refl)
             (unpack_lookup system globals "Ib" _ eq_refl) Hdt' HI').
  by rewrite (update_func_resolved ∅ cell8 s t k1 k2 k3 Gb Ib dt I
                (unpack_lookup cell8 ∅ "k1" _ eq_refl)
                (unpack_lookup cell8 ∅ "k2" _ eq_refl)
                (unpack_lookup cell8 ∅ "k3" _ eq_refl)
                (unpack_lookup cell8 ∅ "Gb" _ eq_refl)
                (unpack_lookup cell8 ∅ "Ib" _ eq_refl)
                (unpack_lookup cell8 ∅ "dt" _ eq_refl)
                (unpack_lookup cell8 ∅ "I" _ eq_refl)).
Qed.

Lemma run_simulation_uses_notebook_names_witness :
  ∃ G0 k1 k2 k3 Gb Ib t_0 t_end,
    system_of 290 (3#100) (2#100) (1#100000) 92 11 0 4
    = system_of G0 k1 k2 k3 Gb Ib t_0 t_end ∧
    run_simulation
      (<["I" := VFun (fun t => 11 + t)]> (<["dt" := VNum 2]> ∅))
      (system_of 290 (3#100) (2#100) (1#100000) 92 11 0 4)
      (update_func
         (<["I" := VFun (fun t => 11 + t)]> (<["dt" := VNum 2]> ∅)))
    = run_simulation ∅
        (notebook_system [("G", G0); ("X", 0)] k1 k2 k3 (fun t => 11 + t)
           Gb Ib t_0 t_end 2)
        (update_func ∅).
Proof.
  apply (run_simulation_uses_notebook_names
           (<["I" := VFun (fun t => 11 + t)]> (<["dt" := VNum 2]> ∅))
           sample_params sample_data
           (system_of 290 (3#100) (2#100) (1#100000) 92 11 0 4)
           2 (fun t => 11 + t)); reflexivity.
Defined.

(** X5. On a config built by [make_system] the slope rule depends on the
    notebook for the insulin signal: for a state (G, X) it raises
    [NameError] for I when the notebook has no global I, and with a global
    I it returns the two derivatives computed from the parameters of the
    config and that I. *)
Theorem slope_func_on_fitted_config (globals : Namespace) (params : list Q)
    (data : DataFrame) (system : System) (state : State) (t G X : Q) :
  make_system params data = Ok system →
  values state = [G; X] →
  (globals !! "I" = None →
   slope_func globals state t system = Raise (NameError "I")) ∧
  (∀ I, globals !! "I" = Some (VFun I) →
        ∃ k1 k2 k3 Gb Ib,
          system !! "k1" = Some (VNum k1) ∧
          system !! "k2" = Some (VNum k2) ∧
          system !! "k3" = Some (VNum k3) ∧
          system !! "Gb" = Some (VNum Gb) ∧
          system !! "Ib" = Some (VNum Ib) ∧
          slope_func globals state t system
          = Ok [- k1 * (G - Gb) - X * G; k3 * (I t - Ib) - k2 * X]).
Proof.
  intros (G0 & k1 & k2 & k3 & Gb & Ib & t_0 & t_end & _ & _ & _ & _ & _ & ->)
    %make_system_inv Hs.
  set (system := system_of G0 k1 k2 k3 Gb Ib t_0 t_end).
  split.
  - intros HI. unfold slope_func, name_num, name_fun. rewrite Hs. simpl.
    rewrite (unpack_lookup system globals "k1" _ eq_refl).
    rewrite (unpack_lookup system globals "Gb" _ eq_refl).
    rewrite (unpack_lookup system globals "k3" _ eq_refl).
    by rewrite (unpack_lookup_global system globals "I" eq_refl), HI.
  - intros I HI. exists k1, k2, k3, Gb, Ib. do 5 (split; [reflexivity|]).
    apply (slope_func_unpacked globals system state t G X k1 k2 k3 Gb Ib I Hs);
      try (by apply unpack_lookup).
    by rewrite (unpack_lookup_global system globals "I" eq_refl).
Qed.

Lemma slope_func_on_fitted_config_witness :
  slope_func ∅ [("G", 290); ("X", 0)] 2
    (system_of 290 (3#100) (2#100) (1#100000) 92 11 0 4)
  = Raise (NameError "I").
Proof.
  apply (slope_func_on_fitted_config ∅ sample_params sample_data
           (system_of 290 (3#100) (2#100) (1#100000) 92 11 0 4)
           [("G", 290); ("X", 0)] 2 290 0); reflexivity.
Defined.

(** ** The baseline row of the data *)

Lemma series_at_absent (data : DataFrame) :
  data ≠ [] →
  Forall (fun o => ¬ time o == 0) data →
  series_at (data_glucose data) 0 = Raise (KeyError 0).
Proof.
  intros Hne Hdata. destruct data as [|o data]; [done|].
  pose proof (find_label_absent (data_glucose (o :: data)) 0) as Hfind.
  unfold series_at.
  change (data_glucose (o :: data))
    with ((time o, glucose o) :: data_glucose data) in *.
  rewrite Hfind; [done|].
  apply Forall_cons in Hdata as [Ho Hdata]. constructor; [done|].
  unfold data_glucose. apply Forall_fmap.
  eapply Forall_impl; [exact Hdata|]. done.
Qed.

(** X6. For four parameters, [make_system] raises [IndexError] on a table
    without rows and [KeyError] for the label 0 on a table with rows none
    of which is labelled 0: [data.glucose[0]] looks the baseline up by
    label, it does not take the first row. *)
Theorem make_system_without_label_0 (params : list Q) (data : DataFrame) :
  length params = 4%nat →
  (data = [] → make_system params data = Raise IndexError) ∧
  (data ≠ [] → Forall (fun o => ¬ time o == 0) data →
   make_system params data = Raise (KeyError 0)).
Proof.
  intros Hlen.
  destruct params as [|G0 [|k1 [|k2 [|k3 [|? ?]]]]]; try done.
  unfold make_system. cbn [unpack4 mbind result_bind]. split.
  - by intros ->.
  - intros Hne Hdata. by rewrite (series_at_absent data Hne Hdata).
Qed.

Lemma make_system_without_label_0_witness :
  make_system sample_params [] = Raise IndexError ∧
  make_system sample_params [mkObservation 2 350 26; mkObservation 4 287 130]
  = Raise (KeyError 0).
Proof.
  split.
  - by apply (make_system_without_label_0 sample_params []).
  - apply (make_system_without_label_0 sample_params
             [mkObservation 2 350 26; mkObservation 4 287 130]);
      [reflexivity|done|].
    repeat constructor; discriminate.
Defined.

(** X7. The baselines come from the row labelled 0 wherever it is in the
    table, while the start time is the label of the first row: for a
    table [before ++ o :: after] in which [o] is the one row labelled 0,
    [make_system] returns a config with Gb and Ib the glucose and insulin
    of [o], t_0 the first label and t_end the last label of the whole
    table. *)
Theorem make_system_baseline_row (G0 k1 k2 k3 : Q)
    (before after : DataFrame) (o : observation) :
  Forall (fun o' => ¬ time o' == 0) before →
  time o == 0 →
  Forall (fun o' => ¬ time o' == 0) after →
  ∃ system t_0 t_end,
    make_system [G0; k1; k2; k3] (before ++ o :: after) = Ok system ∧
    system !! "Gb" = Some (VNum (glucose o)) ∧
    system !! "Ib" = Some (VNum (insulin o)) ∧
    head (data_index (before ++ o :: after)) = Some t_0 ∧
    system !! "t_0" = Some (VNum t_0) ∧
    last (data_index (before ++ o :: after)) = Some t_end ∧
    system !! "t_end" = Some (VNum t_end).
Proof.
  intros Hbefore Ho _.
  set (data := before ++ o :: after).
  destruct (series_at_one_row before after o Hbefore Ho) as [HGb HIb].
  fold data in HGb, HIb.
  destruct (labelled_data_has_ends data _ HGb) as (t_0 & t_end & Ht0 & Htend).
  exists (system_of G0 k1 k2 k3 (glucose o) (insulin o) t_0 t_end), t_0, t_end.
  split; [by apply make_system_ok|]. do 2 (split; [reflexivity|]).
  split.
  { unfold get_first_label in Ht0.
    by destruct (data_index data); [|injection Ht0 as ->]. }
  split; [reflexivity|]. split; [|reflexivity].
  unfold get_last_label in Htend.
  by destruct (last (data_index data)); [injection Htend as ->|].
Qed.

Lemma make_system_baseline_row_witness :
  ∃ system,
    make_system sample_params reversed_data = Ok system ∧
    system !! "Gb" = Some (VNum 92) ∧ system !! "Ib" = Some (VNum 11) ∧
    system !! "t_0" = Some (VNum 4) ∧ system !! "t_end" = Some (VNum 0).
Proof.
  destruct (make_system_baseline_row 290 (3#100) (2#100) (1#100000)
              [mkObservation 4 287 130; mkObservation 2 350 26] []
              (mkObservation 0 92 11))
    as (system & t_0 & t_end & Hmake & HGb & HIb & Hfirst & Ht0 & Hlast &
        Htend).
  - repeat constructor; discriminate.
  - reflexivity.
  - constructor.
  - injection Hfirst as <-. injection Hlast as <-.
    exists system. repeat split; assumption.
Defined.

(** ** The table as a chain of steps *)

Lemma trajectory_chain (f : update_rule) (system : System) (dt : Q)
    (ts : list Q) (t0 : Q) (state : State) (new : list (Q * State)) :
  trajectory f system dt ts state = Ok new →
  ∀ j r r', ((t0, state) :: new) !! j = Some r →
            ((t0, state) :: new) !! S j = Some r' →
            ∃ t, ts !! j = Some t ∧ r'.1 = t + dt ∧
                 f r.2 t system = Ok r'.2.
Proof.
  revert t0 state new. induction ts as [|t ts IH]; intros t0 state new; simpl.
  - intros [= <-] j r r' _ Hr'. by destruct j.
  - destruct (f state t system) as [s'|e] eqn:Hf; simpl; [|done].
    destruct (trajectory f system dt ts s') as [rest|e] eqn:Hrest;
      simpl; [|done].
    intros [= <-] j r r' Hr Hr'. destruct j as [|j].
    + injection Hr as <-. injection Hr' as <-. by exists t.
    + apply (IH (t + dt) s' rest Hrest j r r' Hr Hr').
Qed.

Lemma trajectory_raise (f : update_rule) (system : System) (dt : Q)
    (ts : list Q) (state : State) (e : exn) :
  trajectory f system dt ts state = Raise e →
  ∃ s t, t ∈ ts ∧ f s t system = Raise e.
Proof.
  revert state. induction ts as [|t ts IH]; intros state; simpl; [done|].
  destruct (f state t system) as [s'|e'] eqn:Hf; simpl.
  - destruct (trajectory f system dt ts s') as [rest|e'] eqn:Hrest;
      simpl; [done|].
    intros [= ->]. destruct (IH s' Hrest) as (s & t' & Ht' & Hraise).
    exists s, t'. split; [by right|done].
  - intros [= ->]. exists state, t. split; [by left|done].
Qed.

(** X8. In the table [run_simulation] returns (positive step), each row
    follows from the row before it by one call of the update rule: the
    rule applied to the state of row i at the time of row i gives the
    state of row i+1, whose time is dt later. *)
Theorem run_simulation_chain (globals : Namespace) (system : System)
    (f : update_rule) (init : State) (t_0 t_end dt : Q) (frame : TimeFrame) :
  unpack system globals !! "init" = Some (VState init) →
  unpack system globals !! "t_0" = Some (VNum t_0) →
  unpack system globals !! "t_end" = Some (VNum t_end) →
  unpack system globals !! "dt" = Some (VNum dt) →
  0 < dt →
  run_simulation globals system f = Ok frame →
  ∀ i r r', rows frame !! i = Some r → rows frame !! S i = Some r' →
            ∃ t, t == r.1 ∧ f r.2 t system = Ok r'.2 ∧ r'.1 = t + dt.
Proof.
  intros Hinit Ht0 Htend Hdt Hpos.
  rewrite (run_simulation_trajectory _ _ _ _ _ _ _ Hinit Ht0 Htend Hdt Hpos).
  destruct (trajectory f system dt (linrange t_0 t_end dt) init)
    as [new|e] eqn:Hnew; simpl; [|done].
  intros [= <-] i r r' Hr Hr'. simpl in Hr, Hr'.
  destruct (trajectory_chain _ _ _ _ t_0 _ _ Hnew i r r' Hr Hr')
    as (t & Ht & Hlabel & Hf).
  exists t. split; [|done].
  apply linrange_lookup in Ht as [-> _]; [|done].
  destruct (recorded_times_lookup t_0 t_end dt i r.1 Hpos) as [-> _];
    [|reflexivity].
  rewrite <- (trajectory_times _ _ _ _ _ _ Hnew).
  change (t_0 :: new.*1) with (((t_0, init) :: new).*1).
  by rewrite list_lookup_fmap, Hr.
Qed.

Lemma run_simulation_chain_witness :
  ∃ frame r r' t,
    run_simulation ∅
      (notebook_system [("G", 290); ("X", 0)] (3#100) (2#100) (1#100000)
         (fun _ => 11) 92 11 0 4 2)
      (update_func ∅) = Ok frame ∧
    rows frame !! 1%nat = Some r ∧ rows frame !! 2%nat = Some r' ∧
    t == r.1 ∧
    update_func ∅ r.2 t
      (notebook_system [("G", 290); ("X", 0)] (3#100) (2#100) (1#100000)
         (fun _ => 11) 92 11 0 4 2) = Ok r'.2 ∧
    r'.1 = t + 2.
Proof.
  set (system := notebook_system [("G", 290); ("X", 0)] (3#100) (2#100)
                   (1#100000) (fun _ => 11) 92 11 0 4 2).
  assert (Hex : ∃ frame r r',
            run_simulation ∅ system (update_func ∅) = Ok frame ∧
            rows frame !! 1%nat = Some r ∧ rows frame !! 2%nat = Some r')
    by (eexists _, _, _; split; [reflexivity|split; reflexivity]).
  destruct Hex as (frame & r & r' & Hrun & Hr & Hr').
  edestruct (run_simulation_chain ∅ system (update_func ∅)
               [("G", 290); ("X", 0)] 0 4 2 frame)
    as (t & Ht & Hf & Hlabel);
    [reflexivity | reflexivity | reflexivity | reflexivity | reflexivity
    | exact Hrun | exact Hr | exact Hr' | ].
  by exists frame, r, r', t.
Defined.

(** X9. The loop of [run_simulation] reads [frame.row[t]] for each time
    point: a time point that labels no row of the table built so far
    makes it raise [KeyError] for that point.  Over time points that
    start at t_0 and are each the one before plus dt, with dt positive,
    every row it reads is there and the loop raises only what the update
    rule raised at one of the time points. *)
Theorem loop_raises_rule_errors (f : update_rule) (system : System)
    (init : State) (t_0 dt : Q) :
  (∀ done_ts t rest frame,
     run_steps f system dt done_ts (first_frame init t_0) = Ok frame →
     Forall (fun r => ¬ r.1 == t) (rows frame) →
     run_steps f system dt (done_ts ++ t :: rest) (first_frame init t_0)
     = Raise (KeyError t)) ∧
  (∀ ts e,
     0 < dt → evenly_spaced t_0 dt ts →
     run_steps f system dt ts (first_frame init t_0) = Raise e →
     ∃ s t, t ∈ ts ∧ f s t system = Raise e).
Proof.
  split.
  - intros done_ts t rest frame Hdone Hrows.
    rewrite run_steps_app, Hdone. simpl. unfold get_row.
    by rewrite (find_label_absent (rows frame) t Hrows).
  - intros ts e Hpos Hts.
    rewrite (run_steps_trajectory f system dt ts (first_frame init t_0)
               t_0 init Hpos Hts (first_frame_ends_at init t_0)).
    destruct (trajectory f system dt ts init) as [new|e'] eqn:Hnew;
      simpl; [done|].
    intros [= ->]. by apply (trajectory_raise _ _ _ _ _ _ Hnew).
Qed.

Lemma loop_raises_rule_errors_witness :
  run_steps (update_func ∅)
    (notebook_system [("G", 290); ("X", 0)] (3#100) (2#100) (1#100000)
       (fun _ => 11) 92 11 0 4 2)
    2 [0; 3] (first_frame [("G", 290); ("X", 0)] 0)
  = Raise (KeyError 3) ∧
  ∃ s t, t ∈ [0; 2] ∧
    failing_rule s t
      (notebook_system [("G", 290); ("X", 0)] 0 0 0 (fun _ => 11)
         92 11 0 4 2)
    = Raise (RuleError "no step from 2").
Proof.
  destruct (loop_raises_rule_errors (update_func ∅)
              (notebook_system [("G", 290); ("X", 0)] (3#100) (2#100)
                 (1#100000) (fun _ => 11) 92 11 0 4 2)
              [("G", 290); ("X", 0)] 0 2) as [Hkey _].
  destruct (loop_raises_rule_errors failing_rule
              (notebook_system [("G", 290); ("X", 0)] 0 0 0 (fun _ => 11)
                 92 11 0 4 2)
              [("G", 290); ("X", 0)] 0 2) as [_ Hrule].
  split.
  - eapply (Hkey [0] 3 []); [reflexivity|].
    repeat constructor; discriminate.
  - apply (Hrule [0; 2]); [reflexivity| |reflexivity].
    repeat split; reflexivity.
Defined.

(** ** Invariants of the simulated minimal model *)

Lemma rows_invariant (f : update_rule) (system : System)
    (all : list (Q * State)) (P : nat → State → Prop) :
  (∀ i r r', all !! i = Some r → all !! S i = Some r' →
             ∃ t, f r.2 t system = Ok r'.2) →
  (∀ i s t s', P i s → f s t system = Ok s' → P (S i) s') →
  (∀ r, all !! 0%nat = Some r → P 0%nat r.2) →
  ∀ i r, all !! i = Some r → P i r.2.
Proof.
  intros Hchain Hstep H0. induction i as [|i IH]; intros r Hr; [by apply H0|].
  destruct (all !! i) as [r0|] eqn:Hr0.
  - destruct (Hchain i r0 r Hr0 Hr) as (t & Hf).
    by apply (Hstep i r0.2 t r.2); [apply IH|].
  - apply lookup_ge_None in Hr0. apply lookup_lt_Some in Hr. lia.
Qed.

Section MinimalModel.
Context (globals : Namespace) (system : System).
Context (G0 X0 k1 k2 k3 Gb Ib t_0 t_end dt : Q) (I : Q → Q).
Hypothesis Hinit : system !! "init" = Some (VState [("G", G0); ("X", X0)]).
Hypothesis Hk1 : system !! "k1" = Some (VNum k1).
Hypothesis Hk2 : system !! "k2" = Some (VNum k2).
Hypothesis Hk3 : system !! "k3" = Some (VNum k3).
Hypothesis HGb : system !! "Gb" = Some (VNum Gb).
Hypothesis HIb : system !! "Ib" = Some (VNum Ib).
Hypothesis HI : system !! "I" = Some (VFun I).
Hypothesis Ht0 : system !! "t_0" = Some (VNum t_0).
Hypothesis Htend : system !! "t_end" = Some (VNum t_end).
Hypothesis Hdt : system !! "dt" = Some (VNum dt).
Hypothesis Hpos : 0 < dt.

(** An induction principle for the runs of the model: a property of
    (step number, G, X) that holds of the initial state and is kept by the
    two update formulas holds of every row of the table. *)
Lemma model_invariant (P : nat → Q → Q → Prop) :
  P 0%nat G0 X0 →
  (∀ i G X t, P i G X →
     P (S i) (G + (- k1 * (G - Gb) - X * G) * dt)
             (X + (k3 * (I t - Ib) - k2 * X) * dt)) →
  ∃ frame,
    run_simulation globals system (update_func globals) = Ok frame ∧
    ∀ i r, rows frame !! i = Some r →
           ∃ G X, r.2 = [("G", G); ("X", X)] ∧ P i G X.
Proof.
  intros H0 Hstep.
  pose proof (unpack_lookup _ globals _ _ Hinit) as Hinit'.
  pose proof (unpack_lookup _ globals _ _ Hk1) as Hk1'.
  pose proof (unpack_lookup _ globals _ _ Hk2) as Hk2'.
  pose proof (unpack_lookup _ globals _ _ Hk3) as Hk3'.
  pose proof (unpack_lookup _ globals _ _ HGb) as HGb'.
  pose proof (unpack_lookup _ globals _ _ HIb) as HIb'.
  pose proof (unpack_lookup _ globals _ _ HI) as HI'.
  pose proof (unpack_lookup _ globals _ _ Ht0) as Ht0'.
  pose proof (unpack_lookup _ globals _ _ Htend) as Htend'.
  pose proof (unpack_lookup _ globals _ _ Hdt) as Hdt'.
  assert (Hf : ∀ s t, index s = ["G"; "X"] →
            ∃ s', update_func globals s t system = Ok s' ∧
                  index s' = ["G"; "X"])
    by (intros s t; by apply (update_func_keeps_fields globals system
                                 k1 k2 k3 Gb Ib dt I)).
  destruct (trajectory_total (update_func globals) system dt ["G"; "X"]
              (linrange t_0 t_end dt) [("G", G0); ("X", X0)] Hf eq_refl)
    as (new & Hnew & _).
  pose proof (run_simulation_trajectory globals system (update_func globals)
                _ _ _ _ Hinit' Ht0' Htend' Hdt' Hpos) as Hrun.
  rewrite Hnew in Hrun. simpl in Hrun.
  eexists. split; [exact Hrun|]. cbn [rows].
  apply (rows_invariant (update_func globals) system _
           (fun i s => ∃ G X, s = [("G", G); ("X", X)] ∧ P i G X)).
  - intros i r r' Hr Hr'.
    destruct (trajectory_chain _ _ _ _ t_0 _ _ Hnew i r r' Hr Hr')
      as (t & _ & _ & Hft). by exists t.
  - intros i s t s' (G & X & -> & HP).
    rewrite (update_func_unpacked globals system _ t G X k1 k2 k3 Gb Ib dt I);
      [|done..].
    intros [= <-]. eexists _, _. split; [done|]. by apply Hstep.
  - intros r [= <-]. by exists G0, X0.
Qed.

(** X10. With k1, k2 and k3 zero and an initial X of zero, the discrete
    simulation does not move either: every row of the table of
    [run_simulation] with [update_func] holds the initial G and X = 0. *)
Theorem run_simulation_no_drift :
  k1 == 0 → k2 == 0 → k3 == 0 → X0 == 0 →
  ∃ frame,
    run_simulation globals system (update_func globals) = Ok frame ∧
    ∀ i r, rows frame !! i = Some r →
           ∃ G X, r.2 = [("G", G); ("X", X)] ∧ G == G0 ∧ X == 0.
Proof.
  intros E1 E2 E3 EX.
  apply (model_invariant (fun _ G X => G == G0 ∧ X == 0)).
  - split; [reflexivity|done].
  - intros _ G X t [EG EX']. split.
    + rewrite E1, EX', EG. ring.
    + rewrite E2, E3, EX'. ring.
Qed.

(** X11. The baseline is a rest point of the simulation, whatever the
    rate constants: when the run starts at G = Gb and X = 0 and the
    insulin signal stays at Ib, every row of the table holds G = Gb and
    X = 0. *)
Theorem run_simulation_rests_at_baseline :
  G0 == Gb → X0 == 0 → (∀ t, I t == Ib) →
  ∃ frame,
    run_simulation globals system (update_func globals) = Ok frame ∧
    ∀ i r, rows frame !! i = Some r →
           ∃ G X, r.2 = [("G", G); ("X", X)] ∧ G == Gb ∧ X == 0.
Proof.
  intros EG EX EI.
  apply (model_invariant (fun _ G X => G == Gb ∧ X == 0)); [done|].
  intros _ G X t [EG' EX']. split.
  - rewrite EX', EG'. ring.
  - rewrite EI, EX'. ring.
Qed.

End MinimalModel.

Lemma run_simulation_no_drift_witness :
  ∃ frame,
    run_simulation ∅
      (notebook_system [("G", 290); ("X", 0)] 0 0 0 (fun t => 11 + t)
         92 11 0 4 2)
      (update_func ∅) = Ok frame ∧
    ∀ i r, rows frame !! i = Some r →
           ∃ G X, r.2 = [("G", G); ("X", X)] ∧ G == 290 ∧ X == 0.
Proof.
  apply (run_simulation_no_drift ∅
           (notebook_system [("G", 290); ("X", 0)] 0 0 0 (fun t => 11 + t)
              92 11 0 4 2)
           290 0 0 0 0 92 11 0 4 2 (fun t => 11 + t)); reflexivity.
Defined.

Lemma run_simulation_rests_at_baseline_witness :
  ∃ frame,
    run_simulation ∅
      (notebook_system [("G", 92); ("X", 0)] (3#100) (2#100) (1#100000)
         (fun _ => 11) 92 11 0 4 2)
      (update_func ∅) = Ok frame ∧
    ∀ i r, rows frame !! i = Some r →
           ∃ G X, r.2 = [("G", G); ("X", X)] ∧ G == 92 ∧ X == 0.
Proof.
  apply (run_simulation_rests_at_baseline ∅
           (notebook_system [("G", 92); ("X", 0)] (3#100) (2#100)
              (1#100000) (fun _ => 11) 92 11 0 4 2)
           92 0 (3#100) (2#100) (1#100000) 92 11 0 4 2 (fun _ => 11));
    reflexivity.
Defined.

(** ** Errors of [indices] and [error_func] *)

(** X15. [indices] unpacks before it divides: a sequence that has not
    exactly four values raises [ValueError] whatever it holds, and a
    result is returned only for four values whose third (k2) is not
    zero, and then it is State(S_G=k1, S_I=k3/k2). *)
Theorem indices_returns (params : list Q) :
  (length params ≠ 4%nat → indices params = Raise ValueError) ∧
  (∀ s, indices params = Ok s →
        ∃ G0 k1 k2 k3,
          params = [G0; k1; k2; k3] ∧ ¬ k2 == 0 ∧
          s = [("S_G", k1); ("S_I", k3 / k2)]).
Proof.
  unfold indices. split.
  - intros Hlen. by destruct params as [|G0 [|k1 [|k2 [|k3 [|? ?]]]]].
  - intros s. destruct params as [|G0 [|k1 [|k2 [|k3 [|? ?]]]]]; try done.
    simpl. destruct (Qeq_bool k2 0) eqn:E; simpl; [done|].
    intros [= <-]. exists G0, k1, k2, k3. split; [done|]. split; [|done].
    intros H%Qeq_bool_iff. congruence.
Qed.

Lemma indices_returns_witness :
  indices [290; 3#100; 0] = Raise ValueError.
Proof. apply (indices_returns [290; 3#100; 0]). simpl. lia. Defined.

(** X16. [error_func] builds the config first and raises what
    [make_system] raises, whatever the solver and the notebook are:
    [ValueError] for a parameter sequence that has not four values, and
    for four values [IndexError] on a table without rows and [KeyError]
    for the label 0 on a table with rows none of which is labelled 0. *)
Theorem error_func_raises_config_errors (solve : ode_solver)
    (globals : Namespace) (params : list Q) (data : DataFrame) :
  (length params ≠ 4%nat →
   error_func solve globals params data = Raise ValueError) ∧
  (length params = 4%nat → data = [] →
   error_func solve globals params data = Raise IndexError) ∧
  (length params = 4%nat → data ≠ [] →
   Forall (fun o => ¬ time o == 0) data →
   error_func solve globals params data = Raise (KeyError 0)).
Proof.
  unfold error_func. split; [|split].
  - intros Hlen. by rewrite (make_system_wrong_length params data Hlen).
  - intros Hlen ->.
    by destruct params as [|G0 [|k1 [|k2 [|k3 [|? ?]]]]].
  - intros Hlen Hne Hdata.
    destruct params as [|G0 [|k1 [|k2 [|k3 [|? ?]]]]]; try done.
    unfold make_system. cbn [unpack4 mbind result_bind].
    by rewrite (series_at_absent data Hne Hdata).
Qed.

Lemma error_func_raises_config_errors_witness :
  error_func euler_ivp ∅ [290; 3#100] sample_data = Raise ValueError ∧
  error_func euler_ivp ∅ sample_params [] = Raise IndexError ∧
  error_func euler_ivp ∅ sample_params
    [mkObservation 2 350 26; mkObservation 4 287 130]
  = Raise (KeyError 0).
Proof.
  split; [|split].
  - apply (error_func_raises_config_errors euler_ivp ∅ [290; 3#100]
             sample_data). simpl. lia.
  - by apply (error_func_raises_config_errors euler_ivp ∅ sample_params []).
  - apply (error_func_raises_config_errors euler_ivp ∅ sample_params
             [mkObservation 2 350 26; mkObservation 4 287 130]);
      [reflexivity|done|]. repeat constructor; discriminate.
Defined.

(** ** Residuals of a trajectory that stops early *)

Lemma increasing_take (n : nat) (ts : list Q) :
  increasing ts → increasing (take n ts).
Proof.
  intros H i j a b Hij [Ha _]%lookup_take_Some [Hb _]%lookup_take_Some.
  by apply (H i j).
Qed.

Lemma union_labels_increasing (ts : list Q) :
  increasing ts → foldr insert_label [] ts = ts.
Proof.
  induction ts as [|t ts IH]; intros Hinc; [done|].
  simpl. rewrite IH by (by apply (increasing_tail t)).
  destruct ts as [|t' ts]; [done|]. simpl.
  assert (Hlt : t < t') by (apply (Hinc 0%nat 1%nat); [lia|done..]).
  rewrite Qeq_bool_false by (intros E; rewrite E in Hlt; lra).
  assert (E : Qle_bool t t' = true) by (apply Qle_bool_iff; lra).
  by rewrite E.
Qed.

Lemma insert_label_member (ts : list Q) (i : nat) (t : Q) :
  increasing ts → ts !! i = Some t → insert_label t ts = ts.
Proof.
  revert i. induction ts as [|t' ts IH]; intros i Hinc Hi; [done|].
  destruct i as [|i]; simpl in *.
  - injection Hi as ->.
    assert (E : Qeq_bool t t = true) by (apply Qeq_bool_iff; reflexivity).
    by rewrite E.
  - assert (Hlt : t' < t) by (apply (Hinc 0%nat (S i)); [lia|done..]).
    rewrite Qeq_bool_false by (intros E; rewrite E in Hlt; lra).
    destruct (Qle_bool t t') eqn:E; [apply Qle_bool_iff in E; lra|].
    f_equal. apply (IH i); [|done]. by apply (increasing_tail t').
Qed.

Lemma union_labels_prefix (n : nat) (ts : list Q) :
  increasing ts → union_labels (take n ts) ts = ts.
Proof.
  intros Hinc. unfold union_labels.
  rewrite foldr_app, (union_labels_increasing ts Hinc).
  assert (H : ∀ p, Forall (fun t => ∃ i, ts !! i = Some t) p →
                   foldr insert_label ts p = ts).
  { induction 1 as [|t p [i Hi] _ IH]; simpl; [done|].
    rewrite IH. by apply (insert_label_member ts i). }
  apply H. apply Forall_lookup. intros i t [Hi _]%lookup_take_Some.
  by exists i.
Qed.

(** Subtracting a column that stops after [n] labels from one that has
    them all. *)
Lemma series_sub_prefix (a b : Series) (n : nat) :
  a.*1 = take n b.*1 → (n < length b)%nat → increasing b.*1 →
  (series_sub a b).*1 = b.*1 ∧
  (∀ i t y, b !! i = Some (t, y) → (n <= i)%nat →
            series_sub a b !! i = Some (t, None)) ∧
  (∀ i t x y, a !! i = Some (t, x) → b !! i = Some (t, y) →
              series_sub a b !! i = Some (t, Some (x - y))).
Proof.
  intros Ha Hn Hinc. unfold series_sub. cbv zeta.
  assert (Hdiff : same_labels a.*1 b.*1 = false).
  { unfold same_labels. rewrite bool_decide_eq_false_2; [done|].
    rewrite Ha, length_take, length_fmap. lia. }
  rewrite Hdiff, Ha, (union_labels_prefix n _ Hinc).
  assert (Hinca : increasing a.*1) by (rewrite Ha; by apply increasing_take).
  split; [|split].
  - rewrite <- list_fmap_compose. apply list_fmap_id.
  - intros i t y Hb Hi.
    rewrite !list_lookup_fmap, Hb. simpl. do 2 f_equal.
    unfold series_get. rewrite (find_label_absent a t); [done|].
    apply Forall_lookup. intros j e He.
    assert (Hj : a.*1 !! j = Some e.1) by (by rewrite list_lookup_fmap, He).
    rewrite Ha in Hj. apply lookup_take_Some in Hj as [Hj Hjn].
    assert (Hlt : e.1 < t).
    { apply (Hinc j i); [lia|done|]. by rewrite list_lookup_fmap, Hb. }
    intros E. rewrite E in Hlt. lra.
  - intros i t x y Hai Hb.
    rewrite !list_lookup_fmap, Hb. simpl. do 2 f_equal.
    unfold series_get.
    pose proof (find_increasing a i (t, x) Hinca Hai) as Hfa.
    pose proof (find_increasing b i (t, y) Hinc Hb) as Hfb.
    simpl in Hfa, Hfb. by rewrite Hfa, Hfb.
Qed.

Lemma rows_have_length_inv (n : nat) (srows : list (Q * list Q)) :
  forallb (fun r => bool_decide (length r.2 = n)) srows = true →
  Forall (fun r => length r.2 = n) srows.
Proof.
  induction srows as [|r srows IH]; simpl; [constructor|].
  intros [Hr Hrest]%andb_prop. constructor; [|by apply IH].
  by apply bool_decide_eq_true_1 in Hr.
Qed.

Lemma run_ode_solver_fitted_inv (solve : ode_solver) (globals : Namespace)
    (G0 k1 k2 k3 Gb Ib t_0 t_end : Q) (slope : slope_rule)
    (t_eval : option (list Q)) (results : TimeFrame)
    (details : Diagnostics) :
  run_ode_solver solve globals (system_of G0 k1 k2 k3 Gb Ib t_0 t_end)
    slope t_eval = Ok (results, details) →
  ∃ srows,
    results = mkTimeFrame ["G"; "X"]
                ((fun r => (r.1, zip ["G"; "X"] r.2)) <$> srows) ∧
    Forall (fun r => length r.2 = 2%nat) srows.
Proof.
  set (system := system_of G0 k1 k2 k3 Gb Ib t_0 t_end).
  rewrite (run_ode_solver_unfold solve globals system slope t_eval
             [("G", G0); ("X", 0)] t_0 t_end
             (unpack_lookup system globals "init" _ eq_refl)
             (unpack_lookup system globals "t_0" _ eq_refl)
             (unpack_lookup system globals "t_end" _ eq_refl)).
  destruct (solve _ _ _ _) as [sol|e]; simpl; [|done].
  destruct (forallb _ (sol_rows sol)) eqn:Hlen; [|done].
  intros [= <- _]. exists (sol_rows sol). split; [done|].
  by apply rows_have_length_inv.
Qed.

(** X17. When the solver stops early and [run_ode_solver] returns rows
    for the first n observation times only, [error_func] does not fail:
    it returns residuals indexed by all observation times, with the
    difference simulated G minus observed glucose at the times that have a
    row and NaN at all later times. *)
Theorem error_func_partial_trajectory (solve : ode_solver)
    (globals : Namespace) (params : list Q) (data : DataFrame)
    (system : System) (results : TimeFrame) (details : Diagnostics)
    (n : nat) :
  make_system params data = Ok system →
  run_ode_solver solve globals system (slope_func globals)
    (Some (data_index data)) = Ok (results, details) →
  (rows results).*1 = take n (data_index data) →
  (n < length data)%nat →
  increasing (data_index data) →
  ∃ errors,
    error_func solve globals params data = Ok errors ∧
    errors.*1 = data_index data ∧
    (∀ i o, data !! i = Some o → (n <= i)%nat →
            errors !! i = Some (time o, None)) ∧
    (∀ i o r G, data !! i = Some o → rows results !! i = Some r →
                field r.2 "G" = Some G →
                errors !! i = Some (time o, Some (G - glucose o))).
Proof.
  intros Hmake Hrun Hlabels Hn Hinc.
  destruct (make_system_inv _ _ _ Hmake)
    as (G0 & k1 & k2 & k3 & Gb & Ib & t_0 & t_end & _ & _ & _ & _ & _ & ->).
  destruct (run_ode_solver_fitted_inv _ _ _ _ _ _ _ _ _ _ _ _ _ _ Hrun)
    as (srows & -> & Hlen).
  set (G := (fun r : Q * list Q => (r.1, default 0 (head r.2))) <$> srows).
  assert (Hsr : srows.*1 = take n (data_index data)).
  { rewrite <- Hlabels. simpl. by rewrite <- list_fmap_compose. }
  assert (HG1 : G.*1 = take n (data_glucose data).*1).
  { unfold G. by rewrite <- list_fmap_compose, data_glucose_index. }
  destruct (series_sub_prefix G (data_glucose data) n HG1)
    as (Hidx & Hnan & Hdiff).
  { unfold data_glucose. by rewrite length_fmap. }
  { by rewrite data_glucose_index. }
  exists (series_sub G (data_glucose data)). split.
  { unfold error_func. rewrite Hmake. cbn [mbind result_bind].
    rewrite Hrun. cbn [mbind result_bind].
    by rewrite (frame_column_G _ Hlen). }
  split; [by rewrite Hidx, data_glucose_index|]. split.
  - intros i o Ho Hi. apply (Hnan i (time o) (glucose o)); [|done].
    unfold data_glucose. by rewrite list_lookup_fmap, Ho.
  - intros i o r Gi Ho Hr Hfield. simpl in Hr.
    rewrite list_lookup_fmap in Hr.
    destruct (srows !! i) as [[t y]|] eqn:Hrow; [|done].
    injection Hr as <-.
    assert (Hy : length y = 2%nat)
      by (by apply (proj1 (Forall_lookup _ _) Hlen i (t, y))).
    destruct y as [|a [|b [|? ?]]]; try done.
    injection Hfield as <-.
    assert (Ht : t = time o).
    { assert (Hti : srows.*1 !! i = Some t)
        by (by rewrite list_lookup_fmap, Hrow).
      rewrite Hsr in Hti. apply lookup_take_Some in Hti as [Hti _].
      unfold data_index in Hti. rewrite list_lookup_fmap, Ho in Hti.
      by injection Hti. }
    subst t. apply Hdiff.
    + unfold G. by rewrite list_lookup_fmap, Hrow.
    + unfold data_glucose. by rewrite list_lookup_fmap, Ho.
Qed.

Lemma error_func_partial_trajectory_witness :
  ∃ errors,
    error_func stalling_ivp (<["I" := VFun (fun t => 11 + t)]> ∅)
      sample_params sample_data = Ok errors ∧
    errors.*1 = [0; 2; 4] ∧
    errors !! 1%nat = Some (2, None) ∧ errors !! 2%nat = Some (4, None).
Proof.
  edestruct (error_func_partial_trajectory stalling_ivp
               (<["I" := VFun (fun t => 11 + t)]> ∅)
               sample_params sample_data)
    as (errors & Herr & Hidx & Hnan & _).
  - reflexivity.
  - reflexivity.
  - instantiate (1 := 1%nat). reflexivity.
  - simpl. lia.
  - exact increasing_0_2_4.
  - exists errors. split; [exact Herr|]. split; [exact Hidx|]. split.
    + apply (Hnan 1%nat (mkObservation 2 350 26)); [reflexivity|lia].
    + apply (Hnan 2%nat (mkObservation 4 287 130)); [reflexivity|lia].
Defined.

(** ** The baseline in the continuous simulation *)

(** X18. The baseline is a rest point of the slope rule too, whatever the
    rate constants: at G = Gb and X = 0, with the insulin signal at Ib,
    [slope_func] returns two zero derivatives at every time, and the
    continuous simulation started there keeps the initial state at every
    evaluation time (for a solver that honours the evaluation times and
    leaves an equilibrium where it is). *)
Theorem baseline_is_equilibrium (solve : ode_solver) (globals : Namespace)
    (system : System) (G0 X0 k1 k2 k3 Gb Ib t_0 t_end : Q) (I : Q → Q)
    (t_eval : list Q) :
  unpack system globals !! "init" = Some (VState [("G", G0); ("X", X0)]) →
  unpack system globals !! "k1" = Some (VNum k1) →
  unpack system globals !! "k2" = Some (VNum k2) →
  unpack system globals !! "k3" = Some (VNum k3) →
  unpack system globals !! "Gb" = Some (VNum Gb) →
  unpack system globals !! "Ib" = Some (VNum Ib) →
  unpack system globals !! "I" = Some (VFun I) →
  unpack system globals !! "t_0" = Some (VNum t_0) →
  unpack system globals !! "t_end" = Some (VNum t_end) →
  G0 == Gb → X0 == 0 → (∀ t, I t == Ib) →
  (∀ t, ∃ dG dX,
     slope_func globals [("G", G0); ("X", X0)] t system = Ok [dG; dX] ∧
     dG == 0 ∧ dX == 0) ∧
  (honours_t_eval solve → keeps_equilibrium solve →
   increasing t_eval →
   Forall (fun t => t_0 <= t ∧ t <= t_end) t_eval →
   ∃ results details,
     run_ode_solver solve globals system (slope_func globals) (Some t_eval)
     = Ok (results, details) ∧
     (rows results).*1 = t_eval ∧
     Forall (fun r => state_eq r.2 [("G", G0); ("X", X0)]) (rows results)).
Proof.
  intros Hinit Hk1 Hk2 Hk3 HGb HIb HI Ht0 Htend EG EX EI.
  set (init := [("G", G0); ("X", X0)]).
  set (f := fun t y => slope_func globals (zip (index init) y) t system).
  assert (Hslope : ∀ t a b,
            f t [a; b] = Ok [- k1 * (a - Gb) - b * a;
                             k3 * (I t - Ib) - k2 * b])
    by (intros t a b;
        by apply (slope_func_unpacked globals system _ t a b k1 k2 k3 Gb Ib I)).
  split.
  { intros t. eexists _, _. split; [apply (Hslope t G0 X0)|].
    split; [rewrite EX, EG; ring|rewrite EI, EX; ring]. }
  intros Hhon Hkeep Hinc Hspan.
  rewrite (run_ode_solver_unfold _ _ _ _ _ _ _ _ Hinit Ht0 Htend).
  fold init. fold f.
  destruct (Hhon f t_0 t_end (values init) t_eval) as (sol & Hsol & Ht & Hlen);
    [|done|done|].
  { intros t [|a [|b [|? ?]]]; try done. intros _.
    rewrite Hslope. by eexists. }
  rewrite Hsol. simpl. rewrite (rows_have_length 2 _ Hlen).
  do 2 eexists. split; [done|]. simpl. split.
  { rewrite <- list_fmap_compose. exact Ht. }
  apply Forall_fmap.
  assert (Hrest : Forall (fun r => vec_eq r.2 (values init)) (sol_rows sol)).
  { apply (Hkeep f (t_0, t_end) (values init) (Some t_eval) sol); [|done].
    intros t y Hy.
    destruct y as [|a [|b [|? ?]]]; try by (apply Forall2_length in Hy).
    apply Forall2_cons in Hy as [Ha Hy]. apply Forall2_cons in Hy as [Hb _].
    simpl in Ha, Hb. rewrite Hslope. eexists. split; [done|]. split; [done|].
    apply Forall_cons. split; [rewrite Hb, EX, Ha, EG; ring|].
    apply Forall_cons. split; [rewrite EI, Hb, EX; ring|constructor]. }
  eapply Forall_impl; [exact Hrest|]. simpl.
  intros [t [|a [|b [|? ?]]]] Hy; try by (apply Forall2_length in Hy).
  apply Forall2_cons in Hy as [Ha Hy]. apply Forall2_cons in Hy as [Hb _].
  by repeat constructor.
Qed.

Lemma baseline_is_equilibrium_witness :
  ∃ results details,
    run_ode_solver euler_ivp ∅
      (notebook_system [("G", 92); ("X", 0)] (3#100) (2#100) (1#100000)
         (fun _ => 11) 92 11 0 4 2)
      (slope_func ∅) (Some [0; 2; 4])
    = Ok (results, details) ∧
    (rows results).*1 = [0; 2; 4] ∧
    Forall (fun r => state_eq r.2 [("G", 92); ("X", 0)]) (rows results).
Proof.
  apply (baseline_is_equilibrium euler_ivp ∅
           (notebook_system [("G", 92); ("X", 0)] (3#100) (2#100)
              (1#100000) (fun _ => 11) 92 11 0 4 2)
           92 0 (3#100) (2#100) (1#100000) 92 11 0 4 (fun _ => 11)
           [0; 2; 4]); try reflexivity.
  - exact euler_honours_t_eval.
  - exact euler_keeps_equilibrium.
  - exact increasing_0_2_4.
  - repeat constructor; simpl; discriminate.
Defined.
